(** * Annotations API and materialized-column stubs of posthog

    A shallow embedding of [posthog/api/annotation.py] and
    [posthog/clickhouse/materialized_columns/column.py].

    Database tables are explicit state, Django querysets are lists of rows,
    exceptions are the [Raise] branch of a result monad and the signal
    receiver returns the list of the events it dispatches. *)

From stdpp Require Import base option list sorting strings gmap.
From Stdlib Require Import ZArith Ascii.

Local Open Scope string_scope.
Local Open Scope Z_scope.

(** ** Exceptions and the result monad *)

Inductive Exception :=
  | ValidationError
  | ValueError
  | FieldError
  | KeyError
  | DoesNotExist
  | MultipleObjectsReturned
  | Http404
  | MethodNotAllowed (method : string).

Inductive Result (A : Type) : Type :=
  | Ok (a : A)
  | Raise (e : Exception).
Arguments Ok {A} a.
Arguments Raise {A} e.

#[global] Instance Result_ret : MRet Result := @Ok.
#[global] Instance Result_bind : MBind Result := λ A B f m,
  match m with
  | Ok a => f a
  | Raise e => Raise e
  end.

#[global] Instance Exception_eq_dec : EqDecision Exception.
Proof. solve_decision. Defined.

(** ** Models *)

Module Team.
Record t := mk { id : Z; organization_id : Z }.
End Team.

(** Modelled from the spec: the [Annotation] model of [posthog.models], which
    is imported by the view but not part of these sources.  The columns are
    the attributes of the data model; [insight_short_id] and [insight_name]
    are display values derived from [dashboard_item] and are not stored. *)
Module Annotation.
Inductive Scope := PROJECT | ORGANIZATION.

Record t := mk {
  id : Z;
  content : option string;
  date_marker : option Z;
  creation_type : string;
  dashboard_item_id : option Z;
  created_by : option Z;
  created_at : Z;
  updated_at : Z;
  deleted : bool;
  scope : Scope;
  team_id : Z;
  organization_id : Z
}.

#[global] Instance Scope_eq_dec : EqDecision Scope.
Proof. solve_decision. Defined.
#[global] Instance eq_dec : EqDecision t.
Proof. solve_decision. Defined.
End Annotation.

Abbreviation QuerySet := (list Annotation.t).

(** The tables the view reads and writes: teams by primary key (the value is
    the team's organization), the annotation rows in storage order, and the
    sequence that hands out annotation primary keys. *)
Record DB := mkDB {
  team_table : gmap Z Z;
  annotation_table : QuerySet;
  annotation_id_seq : Z
}.

(** [Team.objects.get(id=...)] *)
Definition Team_objects_get (db : DB) (id : Z) : Result Team.t :=
  match team_table db !! id with
  | Some organization_id => Ok (Team.mk id organization_id)
  | None => Raise DoesNotExist
  end.

(** ** Request query parameters

    [request.GET] is a [QueryDict]: the key/value pairs of the query string
    in the order they were sent.  A key may be repeated; item access and
    [get] return the last value, [dict()] has one entry per key in the order
    of first appearance. *)

Abbreviation QueryDict := (list (string * string)).

Fixpoint QueryDict_lookup (q : QueryDict) (key : string) : option string :=
  match q with
  | [] => None
  | (k, v) :: q' =>
      match QueryDict_lookup q' key with
      | Some v' => Some v'
      | None => if decide (k = key) then Some v else None
      end
  end.

Definition QueryDict_get (q : QueryDict) (key default_value : string) : string :=
  default default_value (QueryDict_lookup q key).

Definition QueryDict_getitem (q : QueryDict) (key : string) : Result string :=
  match QueryDict_lookup q key with
  | Some v => Ok v
  | None => Raise KeyError
  end.

Fixpoint QueryDict_keys (q : QueryDict) : list string :=
  match q with
  | [] => []
  | (k, _) :: q' => k :: filter (λ k', k' ≠ k) (QueryDict_keys q')
  end.

Definition QueryDict_dict (q : QueryDict) : list (string * string) :=
  (λ k, (k, QueryDict_get q k "")) <$> QueryDict_keys q.

(** A value of the request body. *)
Inductive JSON :=
  | JNull
  | JBool (b : bool)
  | JNumber (n : Z)
  | JString (s : string).

(** ** What the frameworks decide

    What Django and Django REST framework do with the values the view hands
    them: conversions, the fields' validation, the search terms, and the
    ordering by a key that is not a column of the annotation.  The view's
    behaviour is stated for every choice of them. *)
Class Framework := {
  (** [DateTimeField.to_python] on a lookup value; [None] is a
      [ValidationError]. *)
  to_datetime : string → option Z;
  (** conversion of a lookup value for an integer key; [None] is a
      [ValueError]. *)
  to_pk : string → option Z;
  (** the stored value of a member of [Annotation.Scope]. *)
  Scope_value : Annotation.Scope → string;
  (** [SearchFilter.get_search_terms] on the value of the [search]
      parameter. *)
  search_terms : string → list string;
  (** the lookup [content__icontains=term] on the content of a row. *)
  icontains : string → string → bool;
  (** the defaults of the [creation_type] and [scope] columns. *)
  creation_type_default : string;
  scope_default : Annotation.Scope;
  (** what the serializer's field makes of a value of the request body, for
      each writable field; [None] is a [ValidationError].  The field of
      [dashboard_item] looks the key up among the insights, a table this
      view does not write. *)
  content_field : JSON → option (option string);
  date_marker_field : JSON → option (option Z);
  dashboard_item_field : JSON → option (option Z);
  deleted_field : JSON → option bool;
  scope_field : JSON → option Annotation.Scope;
  (** [queryset.order_by(key)] for a key that is not a column of the
      annotation: a path through a relation, [?], or a name the store does
      not resolve, which is its [FieldError].  Ordering neither drops a row
      nor invents one; through a many-valued relation a row may come more
      than once. *)
  store_order_by : string → QuerySet → Result QuerySet;
  store_order_by_rows : ∀ key queryset sorted,
    store_order_by key queryset = Ok sorted →
    ∀ a, a ∈ sorted ↔ a ∈ queryset
}.

(** The view set instance serving one request: the action name set by the
    router, the team of the URL ([parents_query_dict["team_id"]]), the
    authenticated user and the query parameters. *)
Module View.
Record t := mk {
  action : string;
  team_id : Z;
  user : Z;
  GET : QueryDict
}.
End View.

(** Modelled from the spec: the [team] property of [StructuredViewSetMixin]
    (posthog/api/routing.py is not part of these sources): the requesting
    team, looked up by the team id of the request. *)
Definition View_team (self : View.t) (db : DB) : Result Team.t :=
  Team_objects_get db (View.team_id self).

Section AnnotationsViewSet.
Context {framework : Framework}.

(** [AnnotationsViewSet.filter_queryset_by_parents_lookups] *)
Definition filter_queryset_by_parents_lookups
    (self : View.t) (db : DB) (queryset : QuerySet) : Result QuerySet :=
  team ← View_team self db;
  let organization_id := Team.organization_id team in
  Ok (filter (λ a,
        Annotation.team_id a = View.team_id self
        ∨ (Annotation.scope a = Annotation.ORGANIZATION
           ∧ Annotation.organization_id a = organization_id))
      queryset).

(** [queryset.filter(created_at__gt=value)]: the value is converted by the
    column's field before the rows are compared. *)
Definition filter_created_at__gt (value : string) (queryset : QuerySet)
    : Result QuerySet :=
  match to_datetime value with
  | Some t => Ok (filter (λ a, t < Annotation.created_at a) queryset)
  | None => Raise ValidationError
  end.

(** [queryset.filter(created_at__lt=value)] *)
Definition filter_created_at__lt (value : string) (queryset : QuerySet)
    : Result QuerySet :=
  match to_datetime value with
  | Some t => Ok (filter (λ a, Annotation.created_at a < t) queryset)
  | None => Raise ValidationError
  end.

(** [queryset.filter(dashboard_item_id=value)]; a row without a dashboard
    item matches no value. *)
Definition filter_dashboard_item_id (value : string) (queryset : QuerySet)
    : Result QuerySet :=
  match to_pk value with
  | Some n => Ok (filter (λ a, Annotation.dashboard_item_id a = Some n) queryset)
  | None => Raise ValueError
  end.

(** [queryset.filter(scope=value)]: the stored string is compared. *)
Definition filter_scope (value : string) (queryset : QuerySet) : QuerySet :=
  filter (λ a, Scope_value (Annotation.scope a) = value) queryset.

(** A [for] loop whose body may raise. *)
Fixpoint for_each {A B : Type} (body : B → A → Result B) (l : list A) (acc : B)
    : Result B :=
  match l with
  | [] => Ok acc
  | x :: l' => acc' ← body acc x; for_each body l' acc'
  end.

(** The body of the loop of [_filter_request]. *)
Definition _filter_request_key (GET : QueryDict) (queryset : QuerySet)
    (key : string) : Result QuerySet :=
  if decide (key = "after") then
    value ← QueryDict_getitem GET "after";
    filter_created_at__gt value queryset
  else if decide (key = "before") then
    value ← QueryDict_getitem GET "before";
    filter_created_at__lt value queryset
  else if decide (key = "dashboardItemId") then
    value ← QueryDict_getitem GET "dashboardItemId";
    filter_dashboard_item_id value queryset
  else if decide (key = "scope") then
    value ← QueryDict_getitem GET "scope";
    Ok (filter_scope value queryset)
  else Ok queryset.

(** [AnnotationsViewSet._filter_request] *)
Definition _filter_request (GET : QueryDict) (queryset : QuerySet)
    : Result QuerySet :=
  let filters := QueryDict_dict GET in
  for_each (_filter_request_key GET) filters.*1 queryset.

(** *** Ordering

    A column value as the store compares it.  [NULL] sorts after every
    value in ascending order, and so first in descending order. *)
Inductive Cell :=
  | NULL
  | INTEGER (z : Z)
  | BOOLEAN (b : bool).

Definition Cell_leb (c1 c2 : Cell) : bool :=
  match c1, c2 with
  | _, NULL => true
  | NULL, _ => false
  | INTEGER x, INTEGER y => bool_decide (x ≤ y)
  | INTEGER _, _ => true
  | _, INTEGER _ => false
  | BOOLEAN x, BOOLEAN y => implb x y
  end.

Definition Cell_of_option {A : Type} (f : A → Cell) (o : option A) : Cell :=
  match o with
  | Some x => f x
  | None => NULL
  end.

(** The numeric, time and boolean columns of [Annotation] by the names
    [order_by] knows them under, with the value each one sorts by.  The text
    columns sort by the store's collation and the names of the relations by
    the related model's ordering: those are left to the store. *)
Definition Annotation_columns : list (string * (Annotation.t → Cell)) :=
  [ ("id", λ a, INTEGER (Annotation.id a));
    ("pk", λ a, INTEGER (Annotation.id a));
    ("date_marker", λ a, Cell_of_option INTEGER (Annotation.date_marker a));
    ("dashboard_item_id", λ a, Cell_of_option INTEGER (Annotation.dashboard_item_id a));
    ("created_by_id", λ a, Cell_of_option INTEGER (Annotation.created_by a));
    ("created_at", λ a, INTEGER (Annotation.created_at a));
    ("updated_at", λ a, INTEGER (Annotation.updated_at a));
    ("deleted", λ a, BOOLEAN (Annotation.deleted a));
    ("team_id", λ a, INTEGER (Annotation.team_id a));
    ("organization_id", λ a, INTEGER (Annotation.organization_id a)) ].

Definition Annotation_column (name : string) : option (Annotation.t → Cell) :=
  (λ found, found.2.2) <$> list_find (λ c, c.1 = name) Annotation_columns.

(** The order a sort key asks for: ascending on the column, or descending
    when the key starts with a minus sign. *)
Definition ordering (descending : bool) (column : Annotation.t → Cell)
    : relation Annotation.t :=
  λ a b,
    (if descending then Cell_leb (column b) (column a)
     else Cell_leb (column a) (column b)) = true.

#[global] Instance ordering_dec descending column : RelDecision (ordering descending column).
Proof. intros a b. unfold ordering. apply _. Defined.

(** A sort key taken apart: a leading minus sign asks for the descending
    order of what the rest names. *)
Definition sort_key_parse (key : string) : bool * string :=
  match key with
  | String "-"%char name => (true, name)
  | _ => (false, key)
  end.

(** [queryset.order_by(key)]: a key that names one of the columns above
    sorts the rows by it; every other key is the store's to resolve. *)
Definition order_by (key : string) (queryset : QuerySet) : Result QuerySet :=
  let '(descending, name) := sort_key_parse key in
  match Annotation_column name with
  | Some column => Ok (merge_sort (ordering descending column) queryset)
  | None => store_order_by key queryset
  end.

(** Modelled from the spec: [StructuredViewSetMixin.get_queryset]
    (posthog/api/routing.py is not part of these sources), which is what
    [super().get_queryset()] resolves to in [AnnotationsViewSet]: the view's
    [queryset] attribute, here every row of the table, scoped by
    [filter_queryset_by_parents_lookups] before anything else is applied. *)
Definition StructuredViewSetMixin_get_queryset (self : View.t) (db : DB)
    : Result QuerySet :=
  filter_queryset_by_parents_lookups self db (annotation_table db).

(** [AnnotationsViewSet.get_queryset] *)
Definition get_queryset (self : View.t) (db : DB) : Result QuerySet :=
  queryset ← StructuredViewSetMixin_get_queryset self db;
  queryset ←
    (if decide (View.action self = "list") then
       let order := QueryDict_get (View.GET self) "order" "-date_marker" in
       queryset ← _filter_request (View.GET self) queryset;
       order_by order queryset
     else Ok queryset);
  let queryset :=
    if decide (View.action self ≠ "partial_update") then
      filter (λ a, Annotation.deleted a = false) queryset
    else queryset in
  Ok queryset.

(** [filter_queryset] of the generic view with
    [filter_backends = [filters.SearchFilter]] and
    [search_fields = ["content"]]: without a [search] parameter, or with one
    that holds no search term, the queryset is returned as it is; otherwise
    the rows whose content contains every term are kept, and a row without
    content contains none. *)
Definition filter_queryset (self : View.t) (queryset : QuerySet) : QuerySet :=
  match QueryDict_lookup (View.GET self) "search" with
  | Some value =>
      let terms := search_terms value in
      if decide (terms = []) then queryset
      else
        filter (λ a, Forall (λ term, from_option (icontains term) false
                                       (Annotation.content a) = true) terms)
          queryset
  | None => queryset
  end.

(** The [list] action: the filtered queryset, in order. *)
Definition list_action (self : View.t) (db : DB) : Result QuerySet :=
  queryset ← get_queryset self db;
  Ok (filter_queryset self queryset).

(** [get_object]: the row of the filtered queryset with the primary key of
    the URL. *)
Definition get_object (self : View.t) (pk : Z) (db : DB) : Result Annotation.t :=
  queryset ← get_queryset self db;
  match filter (λ a, Annotation.id a = pk) (filter_queryset self queryset) with
  | [] => Raise Http404
  | [obj] => Ok obj
  | _ => Raise MultipleObjectsReturned
  end.

(** *** Signals

    What the [post_save] receiver sends out: a hook event carrying the
    instance (its serialized form is a function of it) with the owning team
    as the hook's user, and a user action reported against a user with the
    analytics metadata of the instance. *)
Inductive Event :=
  | raw_hook_event (event_name : string) (instance : Annotation.t) (user : Z)
  | report_user_action (user : Z) (event_name : string) (instance : Annotation.t).

(** [annotation_created], the receiver of [post_save] for [Annotation]. *)
Definition annotation_created (instance : Annotation.t) (created : bool)
    : list Event :=
  (if created then
     [raw_hook_event "annotation_created" instance (Annotation.team_id instance)]
   else [])
  ++ match Annotation.created_by instance with
     | Some user =>
         let event_name :=
           if created then "annotation created" else "annotation updated" in
         [report_user_action user event_name instance]
     | None => []
     end.

(** *** Serializer *)

(** [AnnotationSerializer.Meta.fields] *)
Definition Meta_fields : list string :=
  [ "id"; "content"; "date_marker"; "creation_type"; "dashboard_item";
    "insight_short_id"; "insight_name"; "created_by"; "created_at";
    "updated_at"; "deleted"; "scope" ].

(** [AnnotationSerializer.Meta.read_only_fields] *)
Definition Meta_read_only_fields : list string :=
  [ "id"; "creation_type"; "insight_short_id"; "insight_name"; "created_by";
    "created_at"; "updated_at" ].

(** The fields the serializer reads from the request body: a read-only
    field is left out of the input, whatever the body says. *)
Definition writable_fields : list string :=
  filter (λ name, name ∉ Meta_read_only_fields) Meta_fields.

Definition field_input (data : gmap string JSON) (name : string) : option JSON :=
  if decide (name ∈ writable_fields) then data !! name else None.

End AnnotationsViewSet.

(** [validated_data]: a value for each writable field the body supplied;
    the inner [None] is a null. *)
Module Validated.
Record t := mk {
  content : option (option string);
  date_marker : option (option Z);
  dashboard_item : option (option Z);
  deleted : option bool;
  scope : option Annotation.Scope
}.
End Validated.

Section AnnotationSerializer.
Context {framework : Framework}.

(** One field of the serializer run on the body's value for it: a field
    the body leaves out is left out of [validated_data]. *)
Definition run_validation {A : Type} (field : JSON → option A)
    (input : option JSON) : Result (option A) :=
  match input with
  | None => Ok None
  | Some value =>
      match field value with
      | Some validated => Ok (Some validated)
      | None => Raise ValidationError
      end
  end.

Definition validate_content : option JSON → Result (option (option string)) :=
  run_validation content_field.

Definition validate_date_marker : option JSON → Result (option (option Z)) :=
  run_validation date_marker_field.

Definition validate_dashboard_item
    : option JSON → Result (option (option Z)) :=
  run_validation dashboard_item_field.

Definition validate_deleted : option JSON → Result (option bool) :=
  run_validation deleted_field.

Definition validate_scope : option JSON → Result (option Annotation.Scope) :=
  run_validation scope_field.

(** The serializer's reading of the request body into [validated_data].
    Only the writable fields are looked at; a field the body leaves out is
    left out of the result (the columns all have defaults), for a full
    update as for a partial one. *)
Definition to_internal_value (data : gmap string JSON) : Result Validated.t :=
  content ← validate_content (field_input data "content");
  date_marker ← validate_date_marker (field_input data "date_marker");
  dashboard_item ← validate_dashboard_item (field_input data "dashboard_item");
  deleted ← validate_deleted (field_input data "deleted");
  scope ← validate_scope (field_input data "scope");
  Ok (Validated.mk content date_marker dashboard_item deleted scope).

(** [Annotation.objects.create(organization=..., team=..., created_by=...,
    **validated_data)]: the row gets the next primary key and the clock's
    time, is appended to the table, and [post_save] is sent with
    [created=True]. *)
Definition Annotation_objects_create (organization team created_by : Z)
    (validated_data : Validated.t) (now : Z) (db : DB)
    : Annotation.t * DB * list Event :=
  let annotation :=
    Annotation.mk
      (annotation_id_seq db)
      (default None (Validated.content validated_data))
      (default None (Validated.date_marker validated_data))
      creation_type_default
      (default None (Validated.dashboard_item validated_data))
      (Some created_by)
      now now
      (default false (Validated.deleted validated_data))
      (default scope_default (Validated.scope validated_data))
      team organization in
  (annotation,
   mkDB (team_table db) (annotation_table db ++ [annotation])
        (annotation_id_seq db + 1),
   annotation_created annotation true).

(** [instance.save()]: the row with the instance's primary key is replaced
    and [post_save] is sent with [created=False]; when there is no such row
    the instance is inserted and [created] is [True]. *)
Definition Annotation_save (instance : Annotation.t) (now : Z) (db : DB)
    : Annotation.t * DB * list Event :=
  let instance :=
    Annotation.mk
      (Annotation.id instance) (Annotation.content instance)
      (Annotation.date_marker instance) (Annotation.creation_type instance)
      (Annotation.dashboard_item_id instance) (Annotation.created_by instance)
      (Annotation.created_at instance) now
      (Annotation.deleted instance) (Annotation.scope instance)
      (Annotation.team_id instance) (Annotation.organization_id instance) in
  if decide (Exists (λ a, Annotation.id a = Annotation.id instance)
               (annotation_table db)) then
    (instance,
     mkDB (team_table db)
          ((λ a, if decide (Annotation.id a = Annotation.id instance)
                 then instance else a) <$> annotation_table db)
          (annotation_id_seq db),
     annotation_created instance false)
  else
    (instance,
     mkDB (team_table db) (annotation_table db ++ [instance])
          (annotation_id_seq db),
     annotation_created instance true).

(** [instance.team_id = ...] *)
Definition set_team_id (instance : Annotation.t) (team_id : Z) : Annotation.t :=
  Annotation.mk
    (Annotation.id instance) (Annotation.content instance)
    (Annotation.date_marker instance) (Annotation.creation_type instance)
    (Annotation.dashboard_item_id instance) (Annotation.created_by instance)
    (Annotation.created_at instance) (Annotation.updated_at instance)
    (Annotation.deleted instance) (Annotation.scope instance)
    team_id (Annotation.organization_id instance).

(** The attribute assignments of [ModelSerializer.update]: each entry of
    [validated_data] is set on the instance. *)
Definition set_validated (instance : Annotation.t) (validated_data : Validated.t)
    : Annotation.t :=
  Annotation.mk
    (Annotation.id instance)
    (default (Annotation.content instance) (Validated.content validated_data))
    (default (Annotation.date_marker instance)
       (Validated.date_marker validated_data))
    (Annotation.creation_type instance)
    (default (Annotation.dashboard_item_id instance)
       (Validated.dashboard_item validated_data))
    (Annotation.created_by instance)
    (Annotation.created_at instance) (Annotation.updated_at instance)
    (default (Annotation.deleted instance) (Validated.deleted validated_data))
    (default (Annotation.scope instance) (Validated.scope validated_data))
    (Annotation.team_id instance) (Annotation.organization_id instance).

(** [ModelSerializer.update]: set the attributes, then save. *)
Definition ModelSerializer_update (instance : Annotation.t)
    (validated_data : Validated.t) (now : Z) (db : DB)
    : Annotation.t * DB * list Event :=
  Annotation_save (set_validated instance validated_data) now db.

(** [AnnotationSerializer.update]; [self.context["team_id"]] is the team id
    of the view. *)
Definition AnnotationSerializer_update (self : View.t) (instance : Annotation.t)
    (validated_data : Validated.t) (now : Z) (db : DB)
    : Annotation.t * DB * list Event :=
  let instance := set_team_id instance (View.team_id self) in
  ModelSerializer_update instance validated_data now db.

(** [AnnotationSerializer.create]; [request.user] is the user of the view. *)
Definition AnnotationSerializer_create (self : View.t)
    (validated_data : Validated.t) (now : Z) (db : DB)
    : Result (Annotation.t * DB * list Event) :=
  project ← Team_objects_get db (View.team_id self);
  Ok (Annotation_objects_create (Team.organization_id project) (Team.id project)
        (View.user self) validated_data now db).

End AnnotationSerializer.

Section Actions.
Context {framework : Framework}.

(** The [create] action of the model view set: validate, then
    [serializer.create]. *)
Definition create_action (self : View.t) (data : gmap string JSON) (now : Z)
    (db : DB) : Result (Annotation.t * DB * list Event) :=
  validated_data ← to_internal_value data;
  AnnotationSerializer_create self validated_data now db.

(** The [update] and [partial_update] actions: fetch the object through
    [get_object], validate, then [serializer.update]. *)
Definition update_action (self : View.t) (pk : Z) (data : gmap string JSON)
    (now : Z) (db : DB) : Result (Annotation.t * DB * list Event) :=
  instance ← get_object self pk db;
  validated_data ← to_internal_value data;
  Ok (AnnotationSerializer_update self instance validated_data now db).

(** Modelled from the spec: [ForbidDestroyModel.destroy]
    (posthog/api/forbid_destroy_model.py is not part of these sources).  The
    mixin comes before [ModelViewSet] in the bases of [AnnotationsViewSet],
    so its [destroy] is the one the view set has: it fails with the fixed
    method-not-allowed error, whatever the request. *)
Definition ForbidDestroyModel_destroy (self : View.t) (pk : Z) (db : DB)
    : Result (Annotation.t * DB * list Event) :=
  Raise (MethodNotAllowed "DELETE").

(** The outcome of a request: the response, the database after it and the
    events sent.  A request that raises writes nothing. *)
Definition respond (db : DB) (r : Result (Annotation.t * DB * list Event))
    : Result QuerySet * DB * list Event :=
  match r with
  | Ok (obj, db', events) => (Ok [obj], db', events)
  | Raise e => (Raise e, db, [])
  end.

(** The view set as the router calls it, by action name. *)
Definition dispatch (self : View.t) (pk : Z) (data : gmap string JSON) (now : Z)
    (db : DB) : Result QuerySet * DB * list Event :=
  let action := View.action self in
  if decide (action = "list") then (list_action self db, db, [])
  else if decide (action = "retrieve") then
    respond db (obj ← get_object self pk db; Ok (obj, db, []))
  else if decide (action = "create") then
    respond db (create_action self data now db)
  else if decide (action = "update" ∨ action = "partial_update") then
    respond db (update_action self pk data now db)
  else if decide (action = "destroy") then
    respond db (ForbidDestroyModel_destroy self pk db)
  else (Raise (MethodNotAllowed action), db, []).

End Actions.

(** ** Materialized columns *)

Module column.

Abbreviation ColumnName := string.
Abbreviation PropertyName := string.
Abbreviation TableColumn := string.
Abbreviation TableWithProperties := string.
Abbreviation TablesWithMaterializedColumns := string.

Abbreviation Columns := (gmap (PropertyName * TableColumn) ColumnName).

(** [timedelta(minutes=...)], in seconds. *)
Definition timedelta_minutes (minutes : Z) : Z := minutes * 60.

(** The decorator [cache_for] of
    [posthog.clickhouse.materialized_columns.util], which is not part of
    these sources, taken as a parameter: a state of its own, the decorated
    function as a step on that state, and what a cache is for: in a
    state that is [cache_ok] for a function, the decorated function returns
    what the function returns. *)
Class CacheFor := {
  Cache : Type;
  cache_for : Z → (TablesWithMaterializedColumns → Columns)
              → TablesWithMaterializedColumns → Cache → Columns * Cache;
  cache_ok : (TablesWithMaterializedColumns → Columns) → Cache → Prop;
  cache_for_returns : ∀ cache_time fn args cache,
    cache_ok fn cache →
    (cache_for cache_time fn args cache).1 = fn args
    ∧ cache_ok fn (cache_for cache_time fn args cache).2
}.

(** The body of [get_materialized_columns], under the decorator. *)
Definition get_materialized_columns_body (table : TablesWithMaterializedColumns)
    : Columns :=
  ∅.

(** [get_materialized_columns] as the module exports it. *)
Definition get_materialized_columns `{CacheFor}
    (table : TablesWithMaterializedColumns) (cache : Cache) : Columns * Cache :=
  cache_for (timedelta_minutes 15) get_materialized_columns_body table cache.

(** [materialize]: the body is [pass]; the state of the column store is
    threaded through untouched and the result is [None]. *)
Definition materialize {S : Type} (table : TableWithProperties)
    (property : PropertyName) (column_name : option ColumnName)
    (table_column : TableColumn) (store : S) : unit * S :=
  ((), store).

(** [backfill_materialized_columns]: the body is [pass]. *)
Definition backfill_materialized_columns {S T : Type}
    (table : TableWithProperties)
    (properties : list (PropertyName * TableColumn)) (backfill_period : Z)
    (test_settings : option T) (store : S) : unit * S :=
  ((), store).

End column.

(** ** What the claims speak of *)

(** The visibility rule in the words of the specification: the annotation
    belongs to the requesting team, or its scope is ORGANIZATION and it
    belongs to a team under the requesting team's organization. *)
Definition visible_to (db : DB) (requesting_team : Z) (a : Annotation.t) : Prop :=
  Annotation.team_id a = requesting_team
  ∨ (Annotation.scope a = Annotation.ORGANIZATION
     ∧ ∃ organization,
         team_table db !! requesting_team = Some organization
         ∧ team_table db !! Annotation.team_id a = Some organization).

(** An annotation's organization is the organization of its owning team. *)
Definition organization_inherited (db : DB) : Prop :=
  Forall (λ a, team_table db !! Annotation.team_id a
               = Some (Annotation.organization_id a))
    (annotation_table db).

(** The constraints of the annotation table: the primary key is unique and
    was handed out by the sequence; the organization is inherited. *)
Definition db_consistent (db : DB) : Prop :=
  NoDup (Annotation.id <$> annotation_table db)
  ∧ Forall (λ a, Annotation.id a < annotation_id_seq db) (annotation_table db)
  ∧ organization_inherited db.


(** A sort key as the store reads it: a leading minus sign asks for the
    descending order of the field named by the rest. *)
Definition sort_key (descending : bool) (name : string) : string :=
  if descending then String "-"%char name else name.

Definition is_raw_hook_event (e : Event) : bool :=
  match e with
  | raw_hook_event _ _ _ => true
  | report_user_action _ _ _ => false
  end.

(** ** A scenario

    Teams 1 and 2 of organization 10 and team 3 of organization 20, with
    one annotation each, and a soft-deleted annotation of team 1.  Times are
    written as decimal seconds. *)

Definition digit (c : ascii) : option Z :=
  let n := Z.of_N (N_of_ascii c) in
  if decide (48 ≤ n ≤ 57) then Some (n - 48) else None.

Fixpoint decimal (s : string) (acc : Z) : option Z :=
  match s with
  | EmptyString => Some acc
  | String c s' => d ← digit c; decimal s' (acc * 10 + d)
  end.

Definition parse_decimal (s : string) : option Z :=
  if decide (s = "") then None else decimal s 0.

Definition scenario_Scope_value (c : Annotation.Scope) : string :=
  match c with
  | Annotation.PROJECT => "project"
  | Annotation.ORGANIZATION => "organization"
  end.

Definition scenario_framework : Framework.
Proof.
  refine {|
    to_datetime := parse_decimal;
    to_pk := parse_decimal;
    Scope_value := scenario_Scope_value;
    search_terms := λ value, if decide (value = "") then [] else [value];
    icontains := λ term text, bool_decide (is_Some (String.index 0 term text));
    creation_type_default := "USR";
    scope_default := Annotation.PROJECT;
    content_field := λ value,
      match value with
      | JNull => Some None
      | JString s => Some (Some s)
      | _ => None
      end;
    date_marker_field := λ value,
      match value with
      | JNull => Some None
      | JString s => Some <$> parse_decimal s
      | _ => None
      end;
    dashboard_item_field := λ value,
      match value with
      | JNull => Some None
      | JNumber n => Some (Some n)
      | _ => None
      end;
    deleted_field := λ value,
      match value with
      | JBool b => Some b
      | _ => None
      end;
    scope_field := λ value,
      match value with
      | JString s =>
          snd <$> list_find (λ c, scenario_Scope_value c = s)
                    [Annotation.PROJECT; Annotation.ORGANIZATION]
      | _ => None
      end;
    store_order_by := λ key queryset,
      if decide (key = "?") then Ok queryset else Raise FieldError
  |}.
  intros key queryset sorted. case_decide; [|done]. by intros [= <-].
Defined.

Definition a1 : Annotation.t :=
  Annotation.mk 1 (Some "release") (Some 100) "USR" None (Some 7) 100 100
    false Annotation.PROJECT 1 10.
Definition a2 : Annotation.t :=
  Annotation.mk 2 (Some "campaign") (Some 200) "USR" None (Some 8) 200 200
    false Annotation.ORGANIZATION 2 10.
Definition a3 : Annotation.t :=
  Annotation.mk 3 (Some "outage") (Some 300) "USR" None None 300 300
    false Annotation.ORGANIZATION 3 20.
Definition a4 : Annotation.t :=
  Annotation.mk 4 (Some "typo") (Some 400) "USR" None (Some 7) 400 450
    true Annotation.PROJECT 1 10.

Definition scenario_db : DB :=
  mkDB {[ 1 := 10; 2 := 10; 3 := 20 ]} [a1; a2; a3; a4] 5.

Definition as_team (action : string) (team_id : Z) (GET : QueryDict) : View.t :=
  View.mk action team_id 7 GET.

(** A decorator for the scenario: a cache of results by argument, each with
    the time it was computed at, next to the clock; a result older than
    [cache_time] is computed again. *)
Definition scenario_cache_for (cache_time : Z)
    (fn : string → gmap (string * string) string) (args : string)
    (cache : Z * gmap string (Z * gmap (string * string) string))
    : gmap (string * string) string
      * (Z * gmap string (Z * gmap (string * string) string)) :=
  let '(current_time, entries) := cache in
  match entries !! args with
  | Some (t, value) =>
      if decide (current_time - t > cache_time) then
        (fn args, (current_time, <[args := (current_time, fn args)]> entries))
      else (value, cache)
  | None =>
      (fn args, (current_time, <[args := (current_time, fn args)]> entries))
  end.

Definition scenario_cache_ok (fn : string → gmap (string * string) string)
    (cache : Z * gmap string (Z * gmap (string * string) string)) : Prop :=
  ∀ args t value, cache.2 !! args = Some (t, value) → value = fn args.

Definition scenario_CacheFor : column.CacheFor.
Proof.
  refine {| column.Cache := Z * gmap string (Z * gmap (string * string) string);
            column.cache_for := scenario_cache_for;
            column.cache_ok := scenario_cache_ok |}.
  intros cache_time fn args [now entries] Hok. unfold scenario_cache_for.
  destruct (entries !! args) as [[t value]|] eqn:Hlook.
  - destruct (decide (now - t > cache_time)); simpl.
    + split; [done|]. intros args' t' v'. simpl.
      rewrite lookup_insert. case_decide; [naive_solver|]. apply Hok.
    + split; [|done]. by eapply Hok.
  - simpl. split; [done|]. intros args' t' v'. simpl.
    rewrite lookup_insert. case_decide; [naive_solver|]. apply Hok.
Defined.

(** ** What a request's filters keep

    The condition each recognised query parameter puts on a row, read off the
    lookups of [_filter_request]; a parameter that is absent puts none. *)

Section RequestFilters.
Context {framework : Framework}.

Definition keeps_after (GET : QueryDict) (a : Annotation.t) : Prop :=
  match QueryDict_lookup GET "after" ≫= to_datetime with
  | Some t => t < Annotation.created_at a
  | None => True
  end.

Definition keeps_before (GET : QueryDict) (a : Annotation.t) : Prop :=
  match QueryDict_lookup GET "before" ≫= to_datetime with
  | Some t => Annotation.created_at a < t
  | None => True
  end.

Definition keeps_dashboard_item (GET : QueryDict) (a : Annotation.t) : Prop :=
  match QueryDict_lookup GET "dashboardItemId" ≫= to_pk with
  | Some n => Annotation.dashboard_item_id a = Some n
  | None => True
  end.

Definition keeps_scope (GET : QueryDict) (a : Annotation.t) : Prop :=
  match QueryDict_lookup GET "scope" with
  | Some value => Scope_value (Annotation.scope a) = value
  | None => True
  end.

#[global] Instance keeps_after_dec GET a : Decision (keeps_after GET a).
Proof. unfold keeps_after. destruct (_ ≫= _); apply _. Defined.
#[global] Instance keeps_before_dec GET a : Decision (keeps_before GET a).
Proof. unfold keeps_before. destruct (_ ≫= _); apply _. Defined.
#[global] Instance keeps_dashboard_item_dec GET a :
  Decision (keeps_dashboard_item GET a).
Proof. unfold keeps_dashboard_item. destruct (_ ≫= _); apply _. Defined.
#[global] Instance keeps_scope_dec GET a : Decision (keeps_scope GET a).
Proof. unfold keeps_scope. destruct (QueryDict_lookup _ _); apply _. Defined.

Definition request_keeps (GET : QueryDict) (a : Annotation.t) : Prop :=
  keeps_after GET a ∧ keeps_before GET a
  ∧ keeps_dashboard_item GET a ∧ keeps_scope GET a.

(** The values of [after], [before] and [dashboardItemId], where present,
    are ones the store converts. *)
Definition request_converts (GET : QueryDict) : Prop :=
  (∀ value, QueryDict_lookup GET "after" = Some value →
            is_Some (to_datetime value))
  ∧ (∀ value, QueryDict_lookup GET "before" = Some value →
              is_Some (to_datetime value))
  ∧ (∀ value, QueryDict_lookup GET "dashboardItemId" = Some value →
              is_Some (to_pk value)).

(** The query parameters [_filter_request] acts on. *)
Definition recognized_keys : list string :=
  ["after"; "before"; "dashboardItemId"; "scope"].

(** The row the scoping of a team keeps, on the columns it compares. *)
Definition in_scope (team_id organization : Z) (a : Annotation.t) : Prop :=
  Annotation.team_id a = team_id
  ∨ (Annotation.scope a = Annotation.ORGANIZATION
     ∧ Annotation.organization_id a = organization).

End RequestFilters.

(** ** Requests in sequence *)

Section Serving.
Context {framework : Framework}.

(** A request as the router hands it to the view set, with the time it is
    served at. *)
Record Request := mkRequest {
  request_view : View.t;
  request_pk : Z;
  request_data : gmap string JSON;
  request_now : Z
}.

(** The database after a sequence of requests, served one after the
    other. *)
Fixpoint serve (requests : list Request) (db : DB) : DB :=
  match requests with
  | [] => db
  | r :: requests' =>
      serve requests'
        (dispatch (request_view r) (request_pk r) (request_data r)
           (request_now r) db).1.2
  end.

End Serving.

(** * Properties *)

Section Scoping.
Context {framework : Framework}.

Lemma Team_objects_get_Some db id organization :
  team_table db !! id = Some organization →
  Team_objects_get db id = Ok (Team.mk id organization).
Proof. intros Hteam. unfold Team_objects_get. by rewrite Hteam. Qed.

Lemma Team_objects_get_inv db id team :
  Team_objects_get db id = Ok team →
  Team.id team = id
  ∧ team_table db !! id = Some (Team.organization_id team).
Proof.
  unfold Team_objects_get. destruct (team_table db !! id); [|done].
  by intros [= <-].
Qed.

(** What the scoping of the source keeps, on the columns it compares. *)
Lemma scoping_elem_of self db organization queryset a :
  team_table db !! View.team_id self = Some organization →
  ∃ scoped,
    filter_queryset_by_parents_lookups self db queryset = Ok scoped
    ∧ (a ∈ scoped ↔
         a ∈ queryset
         ∧ (Annotation.team_id a = View.team_id self
            ∨ (Annotation.scope a = Annotation.ORGANIZATION
               ∧ Annotation.organization_id a = organization))).
Proof.
  intros Hteam. unfold filter_queryset_by_parents_lookups, View_team.
  rewrite (Team_objects_get_Some _ _ _ Hteam). simpl.
  eexists. split; [done|].
  rewrite list_elem_of_filter. tauto.
Qed.

Lemma scoping_inv self db queryset scoped :
  filter_queryset_by_parents_lookups self db queryset = Ok scoped →
  ∃ organization,
    team_table db !! View.team_id self = Some organization
    ∧ scoped = filter (λ a,
        Annotation.team_id a = View.team_id self
        ∨ (Annotation.scope a = Annotation.ORGANIZATION
           ∧ Annotation.organization_id a = organization)) queryset.
Proof.
  unfold filter_queryset_by_parents_lookups, View_team.
  destruct (Team_objects_get db (View.team_id self)) as [team|] eqn:Hget;
    [|done].
  apply Team_objects_get_inv in Hget as [_ Hteam]. simpl.
  intros [= <-]. eauto.
Qed.

(** On a row whose organization is inherited from its team, the columns
    the source compares say what the specification says. *)
Lemma visible_to_columns db requesting_team organization a :
  team_table db !! requesting_team = Some organization →
  team_table db !! Annotation.team_id a = Some (Annotation.organization_id a) →
  visible_to db requesting_team a ↔
    Annotation.team_id a = requesting_team
    ∨ (Annotation.scope a = Annotation.ORGANIZATION
       ∧ Annotation.organization_id a = organization).
Proof.
  intros Hteam Ha. unfold visible_to. split.
  - intros [?|[? (o & Ho & Hao)]]; [by left|right].
    split; [done|]. congruence.
  - intros [?|[? <-]]; [by left|right]. split; [done|]. eauto.
Qed.

End Scoping.

(** ** The store's ordering *)

Section Ordering.
Context {framework : Framework}.

Lemma Cell_leb_total c1 c2 : Cell_leb c1 c2 = true ∨ Cell_leb c2 c1 = true.
Proof.
  destruct c1 as [|x|[]], c2 as [|y|[]]; simpl; auto.
  destruct (decide (x ≤ y)).
  - left. by apply bool_decide_eq_true.
  - right. apply bool_decide_eq_true. lia.
Qed.

Lemma Cell_leb_trans c1 c2 c3 :
  Cell_leb c1 c2 = true → Cell_leb c2 c3 = true → Cell_leb c1 c3 = true.
Proof.
  destruct c1 as [|x|[]], c2 as [|y|[]], c3 as [|z|[]]; simpl; try done.
  rewrite !bool_decide_eq_true. lia.
Qed.

#[global] Instance ordering_total descending column :
  Total (ordering descending column).
Proof.
  intros a b. unfold ordering. destruct descending; apply Cell_leb_total.
Qed.

#[global] Instance ordering_transitive descending column :
  Transitive (ordering descending column).
Proof.
  intros a b c. unfold ordering. destruct descending; eauto using Cell_leb_trans.
Qed.

Lemma sort_key_parse_sort_key key :
  key = sort_key (sort_key_parse key).1 (sort_key_parse key).2.
Proof.
  destruct key as [|c name]; [done|].
  destruct (decide (c = "-"%char)) as [->|Hc]; [done|].
  assert (sort_key_parse (String c name) = (false, String c name)) as ->.
  { unfold sort_key_parse. destruct c as [[] [] [] [] [] [] [] []]; done. }
  done.
Qed.




Lemma order_by_inv key queryset sorted :
  order_by key queryset = Ok sorted →
  (∃ descending name column,
     key = sort_key descending name
     ∧ Annotation_column name = Some column
     ∧ sorted = merge_sort (ordering descending column) queryset)
  ∨ (Annotation_column (sort_key_parse key).2 = None
     ∧ store_order_by key queryset = Ok sorted).
Proof.
  unfold order_by. pose proof (sort_key_parse_sort_key key) as Hkey.
  destruct (sort_key_parse key) as [descending name]. simpl in *.
  destruct (Annotation_column name) as [column|] eqn:Hcolumn.
  - intros [= <-]. left. by exists descending, name, column.
  - intros Hstore. by right.
Qed.

(** Ordering returns the rows it was given. *)
Lemma order_by_elem_of key queryset sorted a :
  order_by key queryset = Ok sorted → a ∈ sorted ↔ a ∈ queryset.
Proof.
  intros [(descending & name & column & _ & _ & ->)|[_ Hstore]]%order_by_inv.
  - by rewrite merge_sort_Permutation.
  - by apply (store_order_by_rows _ _ _ Hstore).
Qed.

Lemma order_by_default queryset :
  order_by "-date_marker" queryset
  = Ok (merge_sort
          (ordering true (λ a, Cell_of_option INTEGER (Annotation.date_marker a)))
          queryset).
Proof. reflexivity. Qed.




End Ordering.

(** ** Query parameters and the queryset *)

Section Queryset.
Context {framework : Framework}.

Lemma QueryDict_keys_lookup q key :
  key ∈ QueryDict_keys q ↔ is_Some (QueryDict_lookup q key).
Proof.
  induction q as [|[k v] q IH]; simpl.
  - split; [by intros ?%not_elem_of_nil|by intros [? ?]].
  - rewrite elem_of_cons, list_elem_of_filter, IH.
    destruct (QueryDict_lookup q key) as [v'|]; simpl.
    + split; [eauto|]. intros _.
      destruct (decide (key = k)); [by left|right; eauto].
    + destruct (decide (k = key)) as [->|Hne].
      * split; [eauto|by left].
      * split; [|by intros [? ?]].
        intros [->|[_ [? ?]]]; done.
Qed.

Lemma QueryDict_dict_keys q : (QueryDict_dict q).*1 = QueryDict_keys q.
Proof.
  unfold QueryDict_dict. rewrite <- list_fmap_compose.
  apply list_fmap_id.
Qed.

Lemma filter_all {A} (P : A → Prop) `{∀ x, Decision (P x)} (l : list A) :
  (∀ x, P x) → filter P l = l.
Proof.
  intros HP. induction l as [|x l IH]; [done|].
  rewrite filter_cons_True by done. by rewrite IH.
Qed.

Lemma _filter_request_key_incl GET queryset key queryset' a :
  _filter_request_key GET queryset key = Ok queryset' →
  a ∈ queryset' → a ∈ queryset.
Proof.
  unfold _filter_request_key, filter_created_at__gt, filter_created_at__lt,
    filter_dashboard_item_id, filter_scope.
  repeat case_decide;
    try (destruct (QueryDict_getitem GET _) as [value|]; simpl; [|done]);
    try (destruct (to_datetime value); [|done]);
    try (destruct (to_pk value); [|done]);
    intros [= <-]; rewrite ?list_elem_of_filter; tauto.
Qed.

Lemma for_each_incl GET keys queryset queryset' a :
  for_each (_filter_request_key GET) keys queryset = Ok queryset' →
  a ∈ queryset' → a ∈ queryset.
Proof.
  revert queryset. induction keys as [|key keys IH]; intros queryset; simpl.
  - by intros [= <-].
  - destruct (_filter_request_key GET queryset key) as [q1|] eqn:Hkey;
      simpl; [|done].
    intros Hrest Ha. eauto using _filter_request_key_incl.
Qed.

Lemma _filter_request_incl GET queryset queryset' a :
  _filter_request GET queryset = Ok queryset' → a ∈ queryset' → a ∈ queryset.
Proof. apply for_each_incl. Qed.

Lemma _filter_request_key_after GET s1 T1 queryset :
  QueryDict_lookup GET "after" = Some s1 → to_datetime s1 = Some T1 →
  _filter_request_key GET queryset "after"
  = Ok (filter (λ a, T1 < Annotation.created_at a) queryset).
Proof.
  intros Hafter HT1. unfold _filter_request_key, QueryDict_getitem.
  rewrite Hafter. simpl. unfold filter_created_at__gt. by rewrite HT1.
Qed.

Lemma _filter_request_key_before GET s2 T2 queryset :
  QueryDict_lookup GET "before" = Some s2 → to_datetime s2 = Some T2 →
  _filter_request_key GET queryset "before"
  = Ok (filter (λ a, Annotation.created_at a < T2) queryset).
Proof.
  intros Hbefore HT2. unfold _filter_request_key, QueryDict_getitem.
  rewrite Hbefore. simpl. unfold filter_created_at__lt. by rewrite HT2.
Qed.

(** With only [after] and [before] among the keys, the loop keeps the rows
    strictly between the two times, whatever the order of the keys. *)
Lemma for_each_after_before GET T1 T2 s1 s2 keys queryset :
  QueryDict_lookup GET "after" = Some s1 → to_datetime s1 = Some T1 →
  QueryDict_lookup GET "before" = Some s2 → to_datetime s2 = Some T2 →
  (∀ key, key ∈ keys → key = "after" ∨ key = "before") →
  for_each (_filter_request_key GET) keys queryset
  = Ok (filter (λ a, ("after" ∈ keys → T1 < Annotation.created_at a)
                     ∧ ("before" ∈ keys → Annotation.created_at a < T2))
          queryset).
Proof.
  intros Hafter HT1 Hbefore HT2. revert queryset.
  induction keys as [|key keys IH]; intros queryset Hkeys.
  - simpl. f_equal. symmetry. apply filter_all.
    intros a. split; by intros ?%not_elem_of_nil.
  - assert (∀ key, key ∈ keys → key = "after" ∨ key = "before") as Hkeys'.
    { intros k Hk. apply Hkeys. by right. }
    change (for_each (_filter_request_key GET) (key :: keys) queryset)
      with (_filter_request_key GET queryset key
            ≫= for_each (_filter_request_key GET) keys).
    destruct (Hkeys key) as [->| ->]; [by left| |].
    + rewrite (_filter_request_key_after _ _ _ _ Hafter HT1).
      change (Ok ?q ≫= ?f) with (f q).
      rewrite IH by done. f_equal. rewrite list_filter_filter.
      apply list_filter_iff. intros a. rewrite !elem_of_cons.
      intuition (auto; discriminate).
    + rewrite (_filter_request_key_before _ _ _ _ Hbefore HT2).
      change (Ok ?q ≫= ?f) with (f q).
      rewrite IH by done. f_equal. rewrite list_filter_filter.
      apply list_filter_iff. intros a. rewrite !elem_of_cons.
      intuition (auto; discriminate).
Qed.

End Queryset.

Section GetQueryset.
Context {framework : Framework}.

Lemma get_queryset_list self db :
  View.action self = "list" →
  get_queryset self db =
    (scoped ← StructuredViewSetMixin_get_queryset self db;
     filtered ← _filter_request (View.GET self) scoped;
     sorted ← order_by (QueryDict_get (View.GET self) "order" "-date_marker")
                filtered;
     Ok (filter (λ a, Annotation.deleted a = false) sorted)).
Proof.
  intros Haction. unfold get_queryset. rewrite Haction.
  destruct (StructuredViewSetMixin_get_queryset self db) as [scoped|]; [|done].
  simpl.
  destruct (_filter_request (View.GET self) scoped) as [filtered|]; [|done].
  simpl. by destruct (order_by _ filtered).
Qed.

Lemma get_queryset_detail self db :
  View.action self ≠ "list" →
  get_queryset self db =
    (scoped ← StructuredViewSetMixin_get_queryset self db;
     Ok (if decide (View.action self ≠ "partial_update")
         then filter (λ a, Annotation.deleted a = false) scoped
         else scoped)).
Proof.
  intros Haction. unfold get_queryset.
  destruct (StructuredViewSetMixin_get_queryset self db) as [scoped|]; [|done].
  simpl. by rewrite decide_False.
Qed.

Lemma get_queryset_incl self db queryset :
  get_queryset self db = Ok queryset →
  ∃ scoped,
    StructuredViewSetMixin_get_queryset self db = Ok scoped
    ∧ ∀ a, a ∈ queryset → a ∈ scoped.
Proof.
  destruct (decide (View.action self = "list")) as [Hlist|Hdetail].
  - rewrite get_queryset_list by done.
    destruct (StructuredViewSetMixin_get_queryset self db) as [scoped|];
      [|done].
    simpl.
    destruct (_filter_request (View.GET self) scoped) as [filtered|] eqn:Hf;
      [|done].
    simpl. destruct (order_by _ filtered) as [sorted|] eqn:Hs; [|done].
    simpl. intros [= <-]. exists scoped. split; [done|].
    intros a [_ Ha]%list_elem_of_filter.
    apply (_filter_request_incl _ _ _ _ Hf).
    by apply (order_by_elem_of _ _ _ _ Hs).
  - rewrite get_queryset_detail by done.
    destruct (StructuredViewSetMixin_get_queryset self db) as [scoped|];
      [|done].
    simpl. intros [= <-]. exists scoped. split; [done|].
    intros a. case_decide; [|done]. by intros [_ ?]%list_elem_of_filter.
Qed.

Lemma get_queryset_not_deleted self db queryset a :
  View.action self ≠ "partial_update" →
  get_queryset self db = Ok queryset →
  a ∈ queryset → Annotation.deleted a = false.
Proof.
  intros Haction. unfold get_queryset.
  destruct (StructuredViewSetMixin_get_queryset self db) as [scoped|]; [|done].
  simpl.
  destruct (if decide (View.action self = "list") then _ else _)
    as [queryset'|]; [|done].
  simpl. rewrite decide_True by done. intros [= <-].
  by intros [? _]%list_elem_of_filter.
Qed.

Lemma filter_queryset_incl self queryset a :
  a ∈ filter_queryset self queryset → a ∈ queryset.
Proof.
  unfold filter_queryset. destruct (QueryDict_lookup _ _); [|done].
  simpl. case_decide; [done|]. by intros [_ ?]%list_elem_of_filter.
Qed.

Lemma filter_queryset_no_search self queryset :
  QueryDict_lookup (View.GET self) "search" = None →
  filter_queryset self queryset = queryset.
Proof. intros Hsearch. unfold filter_queryset. by rewrite Hsearch. Qed.

Lemma list_action_incl self db result :
  list_action self db = Ok result →
  ∃ queryset,
    get_queryset self db = Ok queryset
    ∧ result = filter_queryset self queryset.
Proof.
  unfold list_action. destruct (get_queryset self db) as [queryset|]; [|done].
  simpl. intros [= <-]. eauto.
Qed.

(** C1: the scoping of the queryset, which comes before the query filters
    and the exclusion of deleted rows, keeps an annotation exactly when it
    belongs to the requesting team or is ORGANIZATION-scoped and belongs to a
    team of the requesting team's organization.  Of a sibling team of the
    same organization, the ORGANIZATION-scoped annotations are kept and the
    PROJECT-scoped ones are not.  Every list result is drawn from the scoped
    rows. *)
Theorem list_visibility_scoping self db :
  is_Some (team_table db !! View.team_id self) →
  organization_inherited db →
  ∃ scoped,
    StructuredViewSetMixin_get_queryset self db = Ok scoped
    ∧ (∀ a, a ∈ scoped ↔
            a ∈ annotation_table db ∧ visible_to db (View.team_id self) a)
    ∧ (∀ a, a ∈ annotation_table db →
            Annotation.team_id a ≠ View.team_id self →
            team_table db !! Annotation.team_id a
              = team_table db !! View.team_id self →
            (Annotation.scope a = Annotation.ORGANIZATION → a ∈ scoped)
            ∧ (Annotation.scope a = Annotation.PROJECT → a ∉ scoped))
    ∧ (∀ result a, list_action self db = Ok result → a ∈ result → a ∈ scoped).
Proof.
  intros [organization Hteam] Hinherited.
  unfold StructuredViewSetMixin_get_queryset at 1.
  unfold filter_queryset_by_parents_lookups, View_team.
  rewrite (Team_objects_get_Some _ _ _ Hteam). simpl.
  eexists. split; [done|].
  assert (∀ a, a ∈ filter (λ a,
              Annotation.team_id a = View.team_id self
              ∨ (Annotation.scope a = Annotation.ORGANIZATION
                 ∧ Annotation.organization_id a = organization))
              (annotation_table db)
            ↔ a ∈ annotation_table db ∧ visible_to db (View.team_id self) a)
    as Hiff.
  { intros a. rewrite list_elem_of_filter. split.
    - intros [Hcols Ha]. split; [done|].
      eapply visible_to_columns; [done| |done].
      unfold organization_inherited in Hinherited.
      by eapply Forall_forall in Hinherited.
    - intros [Ha Hvis]. split; [|done].
      eapply visible_to_columns; [done| |done].
      unfold organization_inherited in Hinherited.
      by eapply Forall_forall in Hinherited. }
  split; [done|]. split.
  - intros a Ha Hsibling Horg. split.
    + intros Hscope. apply Hiff. split; [done|]. right. split; [done|].
      exists organization. split; [done|]. by rewrite Horg.
    + intros Hscope [_ [?|[Hscope' _]]]%Hiff; [done|]. congruence.
  - intros result a Hlist Ha.
    apply list_action_incl in Hlist as (queryset & Hget & ->).
    apply filter_queryset_incl in Ha.
    apply get_queryset_incl in Hget as (scoped & Hscoped & Hincl).
    unfold StructuredViewSetMixin_get_queryset in Hscoped.
    apply scoping_inv in Hscoped as (organization' & Hteam'' & ->).
    assert (organization' = organization) as -> by congruence.
    by apply Hincl.
Qed.

End GetQueryset.

(** The scenario, listed as team 1: its own annotation and the
    organization-wide annotation of team 2 are in scope, the annotation of
    the other organization is not. *)
Lemma list_visibility_scoping_witness :
  ∃ scoped,
    StructuredViewSetMixin_get_queryset (as_team "list" 1 []) scenario_db
      = Ok scoped
    ∧ (∀ a, a ∈ scoped ↔
            a ∈ annotation_table scenario_db ∧ visible_to scenario_db 1 a)
    ∧ (∀ a, a ∈ annotation_table scenario_db →
            Annotation.team_id a ≠ 1 →
            team_table scenario_db !! Annotation.team_id a
              = team_table scenario_db !! 1 →
            (Annotation.scope a = Annotation.ORGANIZATION → a ∈ scoped)
            ∧ (Annotation.scope a = Annotation.PROJECT → a ∉ scoped))
    ∧ (∀ result a,
         @list_action scenario_framework (as_team "list" 1 []) scenario_db
           = Ok result →
         a ∈ result → a ∈ scoped).
Proof.
  apply (@list_visibility_scoping scenario_framework (as_team "list" 1 [])
           scenario_db).
  - exists 10. vm_compute. reflexivity.
  - repeat constructor.
Defined.

(** ** Objects addressed by primary key *)

Section GetObject.
Context {framework : Framework}.

Lemma filter_none {A} (P : A → Prop) `{∀ x, Decision (P x)} (l : list A) :
  (∀ x, x ∈ l → ¬ P x) → filter P l = [].
Proof.
  induction l as [|x l IH]; intros Hnone; [done|].
  rewrite filter_cons_False by (apply Hnone; by left).
  apply IH. intros y Hy. apply Hnone. by right.
Qed.

Lemma filter_pk_unique (l : QuerySet) a :
  NoDup (Annotation.id <$> l) → a ∈ l →
  filter (λ x, Annotation.id x = Annotation.id a) l = [a].
Proof.
  induction l as [|x l IH]; intros Hnodup Ha.
  - by apply not_elem_of_nil in Ha.
  - rewrite fmap_cons in Hnodup. apply NoDup_cons in Hnodup as [Hx Hnodup].
    apply elem_of_cons in Ha as [->|Ha].
    + rewrite filter_cons_True by done. f_equal.
      apply filter_none. intros y Hy Heq. apply Hx. rewrite <- Heq.
      by apply list_elem_of_fmap_2.
    + rewrite filter_cons_False; [by apply IH|].
      intros Heq. apply Hx. rewrite Heq. by apply list_elem_of_fmap_2.
Qed.

Lemma NoDup_pk_filter (P : Annotation.t → Prop) `{∀ x, Decision (P x)}
    (l : QuerySet) :
  NoDup (Annotation.id <$> l) → NoDup (Annotation.id <$> filter P l).
Proof.
  intros Hnodup. eapply sublist_NoDup; [done|].
  apply fmap_sublist, sublist_filter.
Qed.

Lemma get_object_inv self pk db obj :
  get_object self pk db = Ok obj →
  ∃ queryset,
    get_queryset self db = Ok queryset
    ∧ obj ∈ queryset ∧ Annotation.id obj = pk.
Proof.
  unfold get_object. destruct (get_queryset self db) as [queryset|]; [|done].
  simpl.
  destruct (filter _ (filter_queryset self queryset)) as [|x [|y l]] eqn:Hf;
    [done| |done].
  intros [= ->]. exists queryset. split; [done|].
  assert (obj ∈ filter (λ a, Annotation.id a = pk)
                  (filter_queryset self queryset)) as Hobj.
  { rewrite Hf. by left. }
  apply list_elem_of_filter in Hobj as [Hpk Hobj].
  eauto using filter_queryset_incl.
Qed.

Lemma get_object_found self db queryset a :
  get_queryset self db = Ok queryset →
  NoDup (Annotation.id <$> queryset) →
  a ∈ filter_queryset self queryset →
  get_object self (Annotation.id a) db = Ok a.
Proof.
  intros Hget Hnodup Ha. unfold get_object. rewrite Hget. simpl.
  rewrite (filter_pk_unique _ a); [done| |done].
  unfold filter_queryset. destruct (QueryDict_lookup _ _); [|done].
  simpl. case_decide; [done|]. by apply NoDup_pk_filter.
Qed.

Lemma get_object_in_table self pk db obj :
  get_object self pk db = Ok obj →
  ∃ organization,
    team_table db !! View.team_id self = Some organization
    ∧ obj ∈ annotation_table db
    ∧ Annotation.id obj = pk
    ∧ (Annotation.team_id obj = View.team_id self
       ∨ (Annotation.scope obj = Annotation.ORGANIZATION
          ∧ Annotation.organization_id obj = organization)).
Proof.
  intros (queryset & Hget & Hobj & Hpk)%get_object_inv.
  apply get_queryset_incl in Hget as (scoped & Hscoped & Hincl).
  apply Hincl in Hobj.
  apply scoping_inv in Hscoped as (organization & Hteam & ->).
  apply list_elem_of_filter in Hobj as [Hcols Hobj].
  exists organization. eauto.
Qed.

(** C9: under every action other than [partial_update], retrieval and the
    full update among them, the queryset holds no soft-deleted row, so the
    object lookup never returns one and answers not-found for the primary
    key of one; under [partial_update] a soft-deleted row in scope is
    found. *)
Theorem deleted_reached_by_partial_update_only self db :
  View.action self ≠ "partial_update" →
  (∀ queryset a,
     get_queryset self db = Ok queryset → a ∈ queryset →
     Annotation.deleted a = false)
  ∧ (∀ pk obj, get_object self pk db = Ok obj → Annotation.deleted obj = false)
  ∧ (∀ pk,
       View.action self ≠ "list" →
       is_Some (team_table db !! View.team_id self) →
       (∀ a, a ∈ annotation_table db → Annotation.id a = pk →
             Annotation.deleted a = true) →
       get_object self pk db = Raise Http404)
  ∧ (∀ a,
       db_consistent db →
       is_Some (team_table db !! View.team_id self) →
       a ∈ annotation_table db →
       Annotation.deleted a = true →
       visible_to db (View.team_id self) a →
       QueryDict_lookup (View.GET self) "search" = None →
       get_object
         (View.mk "partial_update" (View.team_id self) (View.user self)
            (View.GET self))
         (Annotation.id a) db = Ok a).
Proof.
  intros Haction. split; [|split; [|split]].
  - intros queryset a. by apply get_queryset_not_deleted.
  - intros pk obj (queryset & Hget & Hobj & _)%get_object_inv.
    by eapply get_queryset_not_deleted.
  - intros pk Hdetail [organization Hteam] Hdeleted.
    unfold get_object. rewrite get_queryset_detail by done.
    unfold StructuredViewSetMixin_get_queryset,
      filter_queryset_by_parents_lookups, View_team.
    rewrite (Team_objects_get_Some _ _ _ Hteam). simpl.
    rewrite decide_True by done.
    rewrite filter_none; [done|].
    intros a Ha%filter_queryset_incl Hpk.
    apply list_elem_of_filter in Ha as [Hlive Ha].
    apply list_elem_of_filter in Ha as [_ Ha].
    specialize (Hdeleted a Ha Hpk). congruence.
  - intros a (Hnodup & _ & Hinherited) [organization Hteam] Ha Hdel Hvis
      Hsearch.
    set (self' := View.mk "partial_update" _ _ _).
    assert (get_queryset self' db
            = Ok (filter (λ a,
                    Annotation.team_id a = View.team_id self
                    ∨ (Annotation.scope a = Annotation.ORGANIZATION
                       ∧ Annotation.organization_id a = organization))
                  (annotation_table db))) as Hget.
    { rewrite get_queryset_detail by done.
      unfold StructuredViewSetMixin_get_queryset,
        filter_queryset_by_parents_lookups, View_team. simpl.
      by rewrite (Team_objects_get_Some _ _ _ Hteam). }
    eapply get_object_found; [done|by apply NoDup_pk_filter|].
    rewrite filter_queryset_no_search by done.
    apply list_elem_of_filter. split; [|done].
    eapply visible_to_columns; [done| |done].
    unfold organization_inherited in Hinherited.
    by eapply Forall_forall in Hinherited.
Qed.

End GetObject.

(** In the scenario, the soft-deleted annotation 4 is not found by a
    retrieval and is found by a partial update. *)
Lemma deleted_reached_by_partial_update_only_witness :
  (∀ queryset a,
     @get_queryset scenario_framework (as_team "retrieve" 1 []) scenario_db
       = Ok queryset →
     a ∈ queryset → Annotation.deleted a = false)
  ∧ (∀ pk obj,
       @get_object scenario_framework (as_team "retrieve" 1 []) pk scenario_db
         = Ok obj →
       Annotation.deleted obj = false)
  ∧ (@get_object scenario_framework (as_team "retrieve" 1 []) 4 scenario_db
       = Raise Http404)
  ∧ (@get_object scenario_framework (as_team "partial_update" 1 []) 4
       scenario_db = Ok a4).
Proof.
  destruct (@deleted_reached_by_partial_update_only scenario_framework
              (as_team "retrieve" 1 []) scenario_db)
    as (Hqueryset & Hobject & Hmissing & Hreached); [done|].
  split; [exact Hqueryset|]. split; [exact Hobject|]. split.
  - apply Hmissing; [done|by exists 10|].
    intros a Ha Hpk. vm_compute in Ha.
    repeat (apply elem_of_cons in Ha as [->|Ha]; [by vm_compute in Hpk|]).
    by apply not_elem_of_nil in Ha.
  - apply (Hreached a4).
    + split; [|split].
      * compute_done.
      * repeat constructor.
      * repeat constructor.
    + by exists 10.
    + compute_done.
    + reflexivity.
    + by left.
    + reflexivity.
Defined.

(** ** Serializer *)

Section Serializer.
Context {framework : Framework}.

Lemma writable_not_read_only name :
  name ∈ writable_fields → name ∉ Meta_read_only_fields.
Proof. unfold writable_fields. by intros [? _]%list_elem_of_filter. Qed.

Lemma field_input_read_only (read_only data : gmap string JSON) name :
  (∀ key, is_Some (read_only !! key) → key ∈ Meta_read_only_fields) →
  field_input (read_only ∪ data) name = field_input data name.
Proof.
  intros Hro. unfold field_input. case_decide as Hw; [|done].
  apply lookup_union_r.
  destruct (read_only !! name) eqn:Hname; [|done].
  exfalso. apply (writable_not_read_only name Hw). apply Hro. by eexists.
Qed.

Lemma to_internal_value_read_only (read_only data : gmap string JSON) :
  (∀ key, is_Some (read_only !! key) → key ∈ Meta_read_only_fields) →
  to_internal_value (read_only ∪ data) = to_internal_value data.
Proof.
  intros Hro. unfold to_internal_value.
  by rewrite !(field_input_read_only read_only data _ Hro).
Qed.

(** C3: [create] ignores what the request body says for the read-only
    fields, without rejecting the request, and the annotation it creates
    has the authenticated user as [created_by], the team of the request as
    team and that team's organization as organization; its primary key,
    creation type and times are the system's. *)
Theorem create_ignores_read_only self (data read_only : gmap string JSON)
    now db project validated_data :
  (∀ key, is_Some (read_only !! key) → key ∈ Meta_read_only_fields) →
  Team_objects_get db (View.team_id self) = Ok project →
  to_internal_value data = Ok validated_data →
  ∃ annotation db' events,
    create_action self (read_only ∪ data) now db = Ok (annotation, db', events)
    ∧ create_action self data now db = Ok (annotation, db', events)
    ∧ Annotation.created_by annotation = Some (View.user self)
    ∧ Annotation.team_id annotation = View.team_id self
    ∧ Annotation.organization_id annotation = Team.organization_id project
    ∧ team_table db !! Annotation.team_id annotation
      = Some (Annotation.organization_id annotation)
    ∧ Annotation.id annotation = annotation_id_seq db
    ∧ Annotation.creation_type annotation = creation_type_default
    ∧ Annotation.created_at annotation = now
    ∧ Annotation.updated_at annotation = now
    ∧ annotation_table db' = (annotation_table db ++ [annotation])%list.
Proof.
  intros Hro Hproject Hvalid.
  unfold create_action. rewrite to_internal_value_read_only by done.
  rewrite Hvalid. simpl. unfold AnnotationSerializer_create.
  rewrite Hproject. simpl.
  apply Team_objects_get_inv in Hproject as [Hid Horg].
  do 3 eexists. split; [done|]. split; [done|]. simpl.
  rewrite Hid. repeat split; done.
Qed.

Lemma set_validated_team_id instance validated_data :
  Annotation.team_id (set_validated instance validated_data)
  = Annotation.team_id instance.
Proof. done. Qed.

Lemma Annotation_save_result instance now db :
  (Annotation_save instance now db).1.1
  = Annotation.mk
      (Annotation.id instance) (Annotation.content instance)
      (Annotation.date_marker instance) (Annotation.creation_type instance)
      (Annotation.dashboard_item_id instance) (Annotation.created_by instance)
      (Annotation.created_at instance) now
      (Annotation.deleted instance) (Annotation.scope instance)
      (Annotation.team_id instance) (Annotation.organization_id instance).
Proof. unfold Annotation_save. by case_decide. Qed.

Lemma Annotation_save_stored instance now db :
  (Annotation_save instance now db).1.1
  ∈ annotation_table (Annotation_save instance now db).1.2.
Proof.
  unfold Annotation_save. case_decide as Hexists; simpl.
  - apply Exists_exists in Hexists as (a & Ha & Hpk).
    apply list_elem_of_fmap. exists a. split; [|done].
    by rewrite decide_True.
  - apply elem_of_app. right. by left.
Qed.

(** C6: whatever the instance's team was and whatever the validated input
    holds, [update] stamps the team of the request on the instance, then
    applies the input and saves: the annotation returned, which is the row
    stored, has the team of the request. *)
Theorem update_restamps_team self instance validated_data now db :
  AnnotationSerializer_update self instance validated_data now db
  = Annotation_save
      (set_validated (set_team_id instance (View.team_id self)) validated_data)
      now db
  ∧ Annotation.team_id
      (AnnotationSerializer_update self instance validated_data now db).1.1
    = View.team_id self
  ∧ (AnnotationSerializer_update self instance validated_data now db).1.1
    ∈ annotation_table
        (AnnotationSerializer_update self instance validated_data now db).1.2.
Proof.
  split; [done|]. split.
  - unfold AnnotationSerializer_update, ModelSerializer_update.
    by rewrite Annotation_save_result.
  - apply Annotation_save_stored.
Qed.

End Serializer.

(** In the scenario, user 7 creates an annotation as team 1 and sends values
    for [id], [created_by] and [creation_type] along: they are dropped. *)
Lemma create_ignores_read_only_witness :
  ∃ annotation db' events,
    @create_action scenario_framework (as_team "create" 1 [])
      ({[ "id" := JNumber 99; "created_by" := JNumber 8;
          "creation_type" := JString "GIT" ]}
       ∪ {[ "content" := JString "launch" ]}) 500 scenario_db
      = Ok (annotation, db', events)
    ∧ @create_action scenario_framework (as_team "create" 1 [])
        {[ "content" := JString "launch" ]} 500 scenario_db
      = Ok (annotation, db', events)
    ∧ Annotation.created_by annotation = Some 7
    ∧ Annotation.team_id annotation = 1
    ∧ Annotation.organization_id annotation = 10
    ∧ team_table scenario_db !! Annotation.team_id annotation
      = Some (Annotation.organization_id annotation)
    ∧ Annotation.id annotation = 5
    ∧ Annotation.creation_type annotation = "USR"
    ∧ Annotation.created_at annotation = 500
    ∧ Annotation.updated_at annotation = 500
    ∧ annotation_table db' = (annotation_table scenario_db ++ [annotation])%list.
Proof.
  apply (@create_ignores_read_only scenario_framework (as_team "create" 1 [])
           {[ "content" := JString "launch" ]}
           {[ "id" := JNumber 99; "created_by" := JNumber 8;
              "creation_type" := JString "GIT" ]}
           500 scenario_db (Team.mk 1 10)
           (Validated.mk (Some (Some "launch")) None None None None)).
  - intros key [v Hkey].
    apply lookup_insert_Some in Hkey as [[<- _]|[_ Hkey]]; [compute_done|].
    apply lookup_insert_Some in Hkey as [[<- _]|[_ Hkey]]; [compute_done|].
    apply lookup_singleton_Some in Hkey as [<- _]. compute_done.
  - vm_compute. reflexivity.
  - vm_compute. reflexivity.
Defined.

(** ** Saving and its events *)

Section Saving.
Context {framework : Framework}.

Lemma update_action_inv self pk data now db annotation db' events :
  update_action self pk data now db = Ok (annotation, db', events) →
  ∃ instance validated_data,
    get_object self pk db = Ok instance
    ∧ to_internal_value data = Ok validated_data
    ∧ AnnotationSerializer_update self instance validated_data now db
      = (annotation, db', events).
Proof.
  unfold update_action.
  destruct (get_object self pk db) as [instance|]; [|done]. simpl.
  destruct (to_internal_value data) as [validated_data|]; [|done]. simpl.
  intros [= Hupdate]. eauto.
Qed.

Lemma create_action_inv self data now db annotation db' events :
  create_action self data now db = Ok (annotation, db', events) →
  ∃ validated_data organization,
    to_internal_value data = Ok validated_data
    ∧ team_table db !! View.team_id self = Some organization
    ∧ Annotation_objects_create organization (View.team_id self)
        (View.user self) validated_data now db
      = (annotation, db', events).
Proof.
  unfold create_action.
  destruct (to_internal_value data) as [validated_data|]; [|done]. simpl.
  unfold AnnotationSerializer_create.
  destruct (Team_objects_get db (View.team_id self)) as [project|] eqn:Hget;
    [|done].
  apply Team_objects_get_inv in Hget as [Hid Horg]. simpl.
  rewrite Hid. intros [= <- <- <-].
  exists validated_data, (Team.organization_id project). done.
Qed.

(** Saving an instance that was fetched from the table is an update: the
    receiver is called with [created=False]. *)
Lemma Annotation_save_existing instance now db :
  (∃ a, a ∈ annotation_table db ∧ Annotation.id a = Annotation.id instance) →
  (Annotation_save instance now db).2
  = annotation_created (Annotation_save instance now db).1.1 false
  ∧ annotation_table (Annotation_save instance now db).1.2
    = (λ a, if decide (Annotation.id a = Annotation.id instance)
            then (Annotation_save instance now db).1.1 else a)
      <$> annotation_table db
  ∧ team_table (Annotation_save instance now db).1.2 = team_table db
  ∧ annotation_id_seq (Annotation_save instance now db).1.2
    = annotation_id_seq db.
Proof.
  intros Hexists. unfold Annotation_save.
  rewrite decide_True by (by apply Exists_exists). done.
Qed.

Lemma update_action_events self pk data now db annotation db' events :
  update_action self pk data now db = Ok (annotation, db', events) →
  events = annotation_created annotation false.
Proof.
  intros (instance & validated_data & Hget & _ & Hupdate)%update_action_inv.
  apply get_object_in_table in Hget as (_ & _ & Hin & _ & _).
  unfold AnnotationSerializer_update, ModelSerializer_update in Hupdate.
  destruct (Annotation_save_existing
              (set_validated (set_team_id instance (View.team_id self))
                 validated_data) now db) as [Hevents _]; [by eauto|].
  rewrite Hupdate in Hevents. done.
Qed.

Lemma create_action_events self data now db annotation db' events :
  create_action self data now db = Ok (annotation, db', events) →
  events = annotation_created annotation true.
Proof.
  intros (validated_data & organization & _ & _ & Hcreate)%create_action_inv.
  unfold Annotation_objects_create in Hcreate. by injection Hcreate as <- _ <-.
Qed.

Lemma elem_of_annotation_created instance created event :
  event ∈ annotation_created instance created ↔
    (created = true
     ∧ event = raw_hook_event "annotation_created" instance
                 (Annotation.team_id instance))
    ∨ (∃ user,
         Annotation.created_by instance = Some user
         ∧ event = report_user_action user
                     (if created then "annotation created"
                      else "annotation updated") instance).
Proof.
  unfold annotation_created.
  destruct created, (Annotation.created_by instance) as [user|]; simpl;
    rewrite ?elem_of_cons, ?elem_of_nil; split;
    try done;
    try (intros [?|[?|?]]; eauto; done);
    try (intros [?|?]; eauto; done);
    try (intros [[? ?]|[? [? ?]]]; simplify_eq; eauto; done).
Qed.

(** C7: the receiver sends the [annotation_created] hook event exactly when
    the save was a creation, and reports a user action against
    [created_by] exactly when it is set, under the name
    ['annotation created'] for a creation and ['annotation updated']
    otherwise.  The events of a successful create are those of a creation,
    the events of a successful update those of a save that is not one: an
    update sends no hook event. *)
Theorem annotation_created_events instance created self pk data now db :
  (raw_hook_event "annotation_created" instance (Annotation.team_id instance)
     ∈ annotation_created instance created ↔ created = true)
  ∧ (∀ event,
       event ∈ annotation_created instance created →
       is_raw_hook_event event = true →
       created = true)
  ∧ (∀ user event_name reported,
       report_user_action user event_name reported
         ∈ annotation_created instance created ↔
       Annotation.created_by instance = Some user
       ∧ event_name
         = (if created then "annotation created" else "annotation updated")
       ∧ reported = instance)
  ∧ match create_action self data now db with
    | Ok (annotation, _, events) =>
        events = annotation_created annotation true
    | Raise _ => True
    end
  ∧ match update_action self pk data now db with
    | Ok (annotation, _, events) =>
        events = annotation_created annotation false
        ∧ Forall (λ event, is_raw_hook_event event = false) events
    | Raise _ => True
    end.
Proof.
  split; [|split; [|split; [|split]]].
  - rewrite elem_of_annotation_created. split.
    + intros [[? _]|[user [_ ?]]]; done.
    + intros ->. by left.
  - intros event [[? _]|[user [_ ->]]]%elem_of_annotation_created; done.
  - intros user event_name reported. rewrite elem_of_annotation_created.
    split.
    + intros [[_ ?]|[user' [? ?]]]; [done|]. by simplify_eq.
    + intros (Huser & -> & ->). right. eauto.
  - destruct (create_action self data now db) as [[[annotation db'] events]|]
      eqn:Hcreate; [|done].
    by eapply create_action_events.
  - destruct (update_action self pk data now db)
      as [[[annotation db'] events]|] eqn:Hupdate; [|done].
    apply update_action_events in Hupdate as ->. split; [done|].
    apply Forall_forall.
    intros event [[? _]|[user [_ ->]]]%elem_of_annotation_created; done.
Qed.

End Saving.

(** ** The table's constraints are kept *)

Section Consistency.
Context {framework : Framework}.

Lemma create_action_consistent self data now db annotation db' events :
  create_action self data now db = Ok (annotation, db', events) →
  db_consistent db → db_consistent db'.
Proof.
  intros (validated_data & organization & _ & Hteam & Hcreate)%create_action_inv
    (Hnodup & Hseq & Hinherited).
  unfold Annotation_objects_create in Hcreate.
  injection Hcreate as <- <- _. unfold db_consistent, organization_inherited.
  simpl. split; [|split].
  - rewrite fmap_app. apply NoDup_app. split; [done|]. split.
    + intros pk (a & -> & Ha)%list_elem_of_fmap. simpl.
      rewrite list_elem_of_singleton.
      eapply Forall_forall in Hseq; [|done]. simpl in Hseq. lia.
    + apply NoDup_singleton.
  - apply Forall_app. split.
    + eapply Forall_impl; [exact Hseq|]. simpl. intros; lia.
    + repeat constructor. simpl. lia.
  - apply Forall_app. split; [done|]. by repeat constructor.
Qed.

Lemma update_action_consistent self pk data now db annotation db' events :
  update_action self pk data now db = Ok (annotation, db', events) →
  db_consistent db → db_consistent db'.
Proof.
  intros (instance & validated_data & Hget & _ & Hupdate)%update_action_inv
    (Hnodup & Hseq & Hinherited).
  apply get_object_in_table in Hget
    as (organization & Hteam & Hin & _ & Hvisible).
  unfold AnnotationSerializer_update, ModelSerializer_update in Hupdate.
  set (edited := set_validated (set_team_id instance (View.team_id self))
                   validated_data) in Hupdate.
  destruct (Annotation_save_existing edited now db)
    as (_ & Htable & Hteams & Hseq'); [by eauto|].
  pose proof (Annotation_save_result edited now db) as Hsaved.
  rewrite Hupdate in Htable, Hteams, Hseq', Hsaved. simpl in *.
  assert (Annotation.id annotation = Annotation.id instance) as Hpk
    by by rewrite Hsaved.
  assert (team_table db !! Annotation.team_id annotation
          = Some (Annotation.organization_id annotation)) as Horg.
  { rewrite Hsaved. simpl.
    unfold organization_inherited in Hinherited.
    eapply Forall_forall in Hinherited; [|done].
    destruct Hvisible as [Hown|[_ Hsame]]; congruence. }
  unfold db_consistent, organization_inherited.
  rewrite Htable, Hteams, Hseq'. split; [|split].
  - rewrite <- list_fmap_compose.
    erewrite list_fmap_ext; [done|].
    intros i a _. simpl. case_decide; congruence.
  - apply Forall_fmap. eapply Forall_impl; [exact Hseq|].
    intros a Ha. simpl. case_decide; [|done].
    rewrite Hpk. eapply Forall_forall in Hseq; [|done]. done.
  - apply Forall_fmap. eapply Forall_impl; [exact Hinherited|].
    intros a Ha. simpl. by case_decide.
Qed.

(** Every request leaves a consistent database consistent. *)
Lemma dispatch_consistent self pk data now db :
  db_consistent db → db_consistent (dispatch self pk data now db).1.2.
Proof.
  intros Hdb. unfold dispatch. repeat case_decide; simpl; try done.
  - by destruct (get_object self pk db).
  - destruct (create_action self data now db) as [[[a db'] events]|] eqn:Hc;
      simpl; [|done].
    by eapply create_action_consistent.
  - destruct (update_action self pk data now db) as [[[a db'] events]|] eqn:Hu;
      simpl; [|done].
    by eapply update_action_consistent.
Qed.

End Consistency.

(** ** Listing *)

Section Listing.
Context {framework : Framework}.

Lemma scoped_of_team self db organization :
  team_table db !! View.team_id self = Some organization →
  StructuredViewSetMixin_get_queryset self db
  = Ok (filter (λ a,
          Annotation.team_id a = View.team_id self
          ∨ (Annotation.scope a = Annotation.ORGANIZATION
             ∧ Annotation.organization_id a = organization))
        (annotation_table db)).
Proof.
  intros Hteam.
  unfold StructuredViewSetMixin_get_queryset,
    filter_queryset_by_parents_lookups, View_team.
  by rewrite (Team_objects_get_Some _ _ _ Hteam).
Qed.

Lemma list_action_list self db :
  View.action self = "list" →
  list_action self db =
    (scoped ← StructuredViewSetMixin_get_queryset self db;
     filtered ← _filter_request (View.GET self) scoped;
     sorted ← order_by (QueryDict_get (View.GET self) "order" "-date_marker")
                filtered;
     Ok (filter_queryset self
           (filter (λ a, Annotation.deleted a = false) sorted))).
Proof.
  intros Haction. unfold list_action. rewrite get_queryset_list by done.
  destruct (StructuredViewSetMixin_get_queryset self db) as [scoped|]; [|done].
  simpl.
  destruct (_filter_request (View.GET self) scoped) as [filtered|]; [|done].
  simpl. by destruct (order_by _ filtered).
Qed.


Lemma list_action_not_deleted self db result a :
  View.action self = "list" →
  list_action self db = Ok result → a ∈ result →
  Annotation.deleted a = false.
Proof.
  intros Haction (queryset & Hget & ->)%list_action_incl Ha%filter_queryset_incl.
  eapply get_queryset_not_deleted; [|done..]. by rewrite Haction.
Qed.

(** C4: a [list] request whose query parameters are [after] and [before]
    returns, in the default order, exactly the rows in scope that are not
    deleted and whose [created_at] lies strictly between the two times; a
    row created at either bound is left out. *)
Theorem list_after_before self db T1 T2 s1 s2 :
  View.action self = "list" →
  is_Some (team_table db !! View.team_id self) →
  QueryDict_lookup (View.GET self) "after" = Some s1 →
  to_datetime s1 = Some T1 →
  QueryDict_lookup (View.GET self) "before" = Some s2 →
  to_datetime s2 = Some T2 →
  (∀ key, key ∈ QueryDict_keys (View.GET self) →
          key = "after" ∨ key = "before") →
  ∃ scoped result,
    StructuredViewSetMixin_get_queryset self db = Ok scoped
    ∧ list_action self db = Ok result
    ∧ result ≡ₚ filter (λ a, Annotation.deleted a = false
                            ∧ T1 < Annotation.created_at a
                            ∧ Annotation.created_at a < T2) scoped
    ∧ (∀ a, a ∈ result ↔
            a ∈ scoped ∧ Annotation.deleted a = false
            ∧ T1 < Annotation.created_at a < T2)
    ∧ (∀ a, a ∈ result →
            Annotation.created_at a ≠ T1 ∧ Annotation.created_at a ≠ T2).
Proof.
  intros Haction [organization Hteam] Hafter HT1 Hbefore HT2 Hkeys.
  assert (QueryDict_lookup (View.GET self) "order" = None) as Horder.
  { destruct (QueryDict_lookup (View.GET self) "order") eqn:Ho; [|done].
    destruct (Hkeys "order"); [|done..].
    apply QueryDict_keys_lookup. by eexists. }
  assert (QueryDict_lookup (View.GET self) "search" = None) as Hsearch.
  { destruct (QueryDict_lookup (View.GET self) "search") eqn:Ho; [|done].
    destruct (Hkeys "search"); [|done..].
    apply QueryDict_keys_lookup. by eexists. }
  assert ("after" ∈ QueryDict_keys (View.GET self)) as Hkafter.
  { apply QueryDict_keys_lookup. by eexists. }
  assert ("before" ∈ QueryDict_keys (View.GET self)) as Hkbefore.
  { apply QueryDict_keys_lookup. by eexists. }
  rewrite list_action_list by done.
  rewrite (scoped_of_team _ _ _ Hteam). simpl.
  set (scoped := filter _ (annotation_table db)).
  unfold _filter_request. rewrite QueryDict_dict_keys.
  rewrite (for_each_after_before _ T1 T2 s1 s2) by done. simpl.
  unfold QueryDict_get. rewrite Horder.
  change (default "-date_marker" None) with "-date_marker".
  rewrite order_by_default.
  change (Ok ?q ≫= ?f) with (f q). cbv beta.
  rewrite filter_queryset_no_search by done.
  exists scoped. eexists. split; [done|]. split; [done|].
  assert (filter (λ a, Annotation.deleted a = false)
            (merge_sort
               (ordering true
                  (λ a, Cell_of_option INTEGER (Annotation.date_marker a)))
               (filter (λ a,
                  ("after" ∈ QueryDict_keys (View.GET self)
                   → T1 < Annotation.created_at a)
                  ∧ ("before" ∈ QueryDict_keys (View.GET self)
                     → Annotation.created_at a < T2)) scoped))
          ≡ₚ filter (λ a, Annotation.deleted a = false
                          ∧ T1 < Annotation.created_at a
                          ∧ Annotation.created_at a < T2) scoped) as Hperm.
  { rewrite merge_sort_Permutation. rewrite list_filter_filter.
    erewrite list_filter_iff; [done|]. intros a. simpl. tauto. }
  split; [done|]. split.
  - intros a. rewrite Hperm, list_elem_of_filter. tauto.
  - intros a. rewrite Hperm, list_elem_of_filter. lia.
Qed.

End Listing.

(** In the scenario, team 1 lists what was created after time 100 and
    before time 300: of the rows in scope, annotation 1 was created at 100
    and is left out, annotation 2 is returned. *)
Lemma list_after_before_witness :
  ∃ scoped result,
    StructuredViewSetMixin_get_queryset
      (as_team "list" 1 [("after", "100"); ("before", "300")]) scenario_db
      = Ok scoped
    ∧ @list_action scenario_framework
        (as_team "list" 1 [("after", "100"); ("before", "300")]) scenario_db
      = Ok result
    ∧ result ≡ₚ filter (λ a, Annotation.deleted a = false
                            ∧ 100 < Annotation.created_at a
                            ∧ Annotation.created_at a < 300) scoped
    ∧ (∀ a, a ∈ result ↔
            a ∈ scoped ∧ Annotation.deleted a = false
            ∧ 100 < Annotation.created_at a < 300)
    ∧ (∀ a, a ∈ result →
            Annotation.created_at a ≠ 100 ∧ Annotation.created_at a ≠ 300).
Proof.
  apply (@list_after_before scenario_framework
           (as_team "list" 1 [("after", "100"); ("before", "300")])
           scenario_db 100 300 "100" "300").
  - reflexivity.
  - by exists 10.
  - reflexivity.
  - reflexivity.
  - reflexivity.
  - reflexivity.
  - intros key Hkey. vm_compute in Hkey.
    apply elem_of_cons in Hkey as [->|Hkey]; [by left|].
    apply elem_of_cons in Hkey as [->|Hkey]; [by right|].
    by apply not_elem_of_nil in Hkey.
Defined.

(** ** Ordering of the list *)

Section ListOrdering.
Context {framework : Framework}.




(** C5: a [destroy] request fails with the method-not-allowed error, for
    every caller, primary key and state of the table, and the table is left
    as it was. *)
Theorem destroy_not_allowed self pk data now db :
  View.action self = "destroy" →
  ForbidDestroyModel_destroy self pk db = Raise (MethodNotAllowed "DELETE")
  ∧ dispatch self pk data now db = (Raise (MethodNotAllowed "DELETE"), db, []).
Proof.
  intros Haction. split; [done|].
  unfold dispatch. by rewrite Haction.
Qed.

End ListOrdering.


(** In the scenario, deleting annotation 1 as team 1 is refused and the
    tables stay as they are. *)
Lemma destroy_not_allowed_witness :
  ForbidDestroyModel_destroy (as_team "destroy" 1 []) 1 scenario_db
    = Raise (MethodNotAllowed "DELETE")
  ∧ @dispatch scenario_framework (as_team "destroy" 1 []) 1 ∅ 500 scenario_db
    = (Raise (MethodNotAllowed "DELETE"), scenario_db, []).
Proof.
  apply (@destroy_not_allowed scenario_framework (as_team "destroy" 1 []) 1 ∅
           500 scenario_db).
  reflexivity.
Defined.

(** ** Soft deletion and restoring *)

Section Restore.
Context {framework : Framework}.

Lemma get_object_partial_update self db organization a :
  View.action self = "partial_update" →
  NoDup (Annotation.id <$> annotation_table db) →
  team_table db !! View.team_id self = Some organization →
  a ∈ annotation_table db →
  Annotation.team_id a = View.team_id self
  ∨ (Annotation.scope a = Annotation.ORGANIZATION
     ∧ Annotation.organization_id a = organization) →
  QueryDict_lookup (View.GET self) "search" = None →
  get_object self (Annotation.id a) db = Ok a.
Proof.
  intros Haction Hnodup Hteam Ha Hcols Hsearch.
  eapply get_object_found.
  - rewrite get_queryset_detail by (by rewrite Haction).
    rewrite (scoped_of_team _ _ _ Hteam). simpl.
    rewrite decide_False; [done|]. by rewrite Haction; intros ?.
  - by apply NoDup_pk_filter.
  - rewrite filter_queryset_no_search by done.
    by apply list_elem_of_filter.
Qed.

Lemma list_action_no_parameters self db organization :
  View.action self = "list" →
  View.GET self = [] →
  team_table db !! View.team_id self = Some organization →
  list_action self db
  = Ok (filter (λ a, Annotation.deleted a = false)
          (merge_sort
             (ordering true
                (λ a, Cell_of_option INTEGER (Annotation.date_marker a)))
             (filter (λ a,
                Annotation.team_id a = View.team_id self
                ∨ (Annotation.scope a = Annotation.ORGANIZATION
                   ∧ Annotation.organization_id a = organization))
              (annotation_table db)))).
Proof.
  intros Haction HGET Hteam. rewrite list_action_list by done.
  rewrite (scoped_of_team _ _ _ Hteam). unfold filter_queryset.
  rewrite HGET. done.
Qed.

(** C2, as the source has it: no listing or search returns a soft-deleted
    annotation.  A partial update addressed by primary key is not subject to
    the exclusion of deleted rows: it reaches a soft-deleted annotation in
    scope, and when it sets [deleted] to false the annotation is in the
    listing that follows. *)
Theorem soft_deleted_restored_by_partial_update
    self db a data validated_data now :
  View.action self = "partial_update" →
  db_consistent db →
  is_Some (team_table db !! View.team_id self) →
  a ∈ annotation_table db →
  Annotation.deleted a = true →
  visible_to db (View.team_id self) a →
  QueryDict_lookup (View.GET self) "search" = None →
  to_internal_value data = Ok validated_data →
  Validated.deleted validated_data = Some false →
  (∀ listing result,
     View.action listing = "list" →
     list_action listing db = Ok result →
     a ∉ result ∧ ∀ a', a' ∈ result → Annotation.deleted a' = false)
  ∧ ∃ restored db' events,
      update_action self (Annotation.id a) data now db
        = Ok (restored, db', events)
      ∧ Annotation.id restored = Annotation.id a
      ∧ Annotation.deleted restored = false
      ∧ restored ∈ annotation_table db'
      ∧ ∃ result,
          list_action
            (View.mk "list" (View.team_id self) (View.user self) []) db'
            = Ok result
          ∧ restored ∈ result.
Proof.
  intros Haction (Hnodup & Hseq & Hinherited) [organization Hteam] Ha Hdeleted
    Hvisible Hsearch Hvalid Hundelete.
  split.
  { intros listing result Hlist Hresult. split.
    - intros Hin. pose proof (list_action_not_deleted _ _ _ _ Hlist Hresult Hin).
      congruence.
    - intros a'. by eapply list_action_not_deleted. }
  assert (Annotation.team_id a = View.team_id self
          ∨ (Annotation.scope a = Annotation.ORGANIZATION
             ∧ Annotation.organization_id a = organization)) as Hcols.
  { eapply visible_to_columns; [done| |done].
    unfold organization_inherited in Hinherited.
    by eapply Forall_forall in Hinherited. }
  unfold update_action.
  rewrite (get_object_partial_update self db organization a) by done.
  simpl. rewrite Hvalid. simpl.
  unfold AnnotationSerializer_update, ModelSerializer_update.
  set (edited := set_validated (set_team_id a (View.team_id self))
                   validated_data).
  destruct (Annotation_save edited now db) as [[restored db'] events] eqn:Hsave.
  pose proof (Annotation_save_result edited now db) as Hresult.
  pose proof (Annotation_save_stored edited now db) as Hstored.
  destruct (Annotation_save_existing edited now db)
    as (_ & _ & Hteams & _); [by exists a|].
  rewrite Hsave in Hresult, Hstored, Hteams. simpl in Hresult, Hstored, Hteams.
  assert (Annotation.deleted restored = false) as Hlive.
  { rewrite Hresult. simpl. by rewrite Hundelete. }
  exists restored, db', events. split; [done|].
  split; [by rewrite Hresult|]. split; [done|]. split; [done|].
  eexists. split.
  - apply (list_action_no_parameters _ _ organization); [done..|].
    simpl. by rewrite Hteams.
  - apply list_elem_of_filter. split; [done|].
    rewrite merge_sort_Permutation. apply list_elem_of_filter.
    split; [|done]. left. by rewrite Hresult.
Qed.

End Restore.

(** In the scenario, team 1 restores the soft-deleted annotation 4 with a
    partial update and finds it in its next listing. *)
Lemma soft_deleted_restored_by_partial_update_witness :
  (∀ listing result,
     View.action listing = "list" →
     @list_action scenario_framework listing scenario_db = Ok result →
     a4 ∉ result ∧ ∀ a', a' ∈ result → Annotation.deleted a' = false)
  ∧ ∃ restored db' events,
      @update_action scenario_framework (as_team "partial_update" 1 []) 4
        {[ "deleted" := JBool false ]} 500 scenario_db
        = Ok (restored, db', events)
      ∧ Annotation.id restored = 4
      ∧ Annotation.deleted restored = false
      ∧ restored ∈ annotation_table db'
      ∧ ∃ result,
          @list_action scenario_framework (View.mk "list" 1 7 []) db'
            = Ok result
          ∧ restored ∈ result.
Proof.
  apply (@soft_deleted_restored_by_partial_update scenario_framework
           (as_team "partial_update" 1 []) scenario_db a4
           {[ "deleted" := JBool false ]}
           (Validated.mk None None None (Some false) None) 500).
  - reflexivity.
  - split; [compute_done|]. split; repeat constructor.
  - by exists 10.
  - compute_done.
  - reflexivity.
  - by left.
  - reflexivity.
  - vm_compute. reflexivity.
  - reflexivity.
Defined.

(** The claim C2 has the full update reach a soft-deleted annotation as
    well.  In the scenario, a full update of the soft-deleted annotation 4
    by its own team, setting [deleted] to false, answers not-found and
    changes nothing. *)
Lemma full_update_misses_soft_deleted :
  a4 ∈ annotation_table scenario_db
  ∧ Annotation.deleted a4 = true
  ∧ Annotation.team_id a4 = 1
  ∧ @update_action scenario_framework (as_team "update" 1 []) 4
      {[ "deleted" := JBool false ]} 500 scenario_db
    = Raise Http404
  ∧ @dispatch scenario_framework (as_team "update" 1 []) 4
      {[ "deleted" := JBool false ]} 500 scenario_db
    = (Raise Http404, scenario_db, []).
Proof.
  split; [compute_done|]. split; [done|]. split; [done|].
  split; vm_compute; reflexivity.
Qed.

(** ** Materialized columns *)

Section MaterializedColumns.
Context `{column.CacheFor}.

(** C10: [get_materialized_columns] returns the empty mapping for every
    table, and [materialize] and [backfill_materialized_columns] return
    [None] and leave the store as it was, for all their arguments. *)
Theorem materialized_columns_unimplemented {S T : Type}
    (table : string) (cache : column.Cache)
    (property : string) (column_name : option string) (table_column : string)
    (properties : list (string * string)) (backfill_period : Z)
    (test_settings : option T) (store : S) :
  column.cache_ok column.get_materialized_columns_body cache →
  (column.get_materialized_columns table cache).1 = ∅
  ∧ column.cache_ok column.get_materialized_columns_body
      (column.get_materialized_columns table cache).2
  ∧ column.get_materialized_columns_body table = ∅
  ∧ column.materialize table property column_name table_column store
    = ((), store)
  ∧ column.backfill_materialized_columns table properties backfill_period
      test_settings store
    = ((), store).
Proof.
  intros Hcache. unfold column.get_materialized_columns.
  destruct (column.cache_for_returns (column.timedelta_minutes 15)
              column.get_materialized_columns_body table cache Hcache)
    as [Hreturns Hkept].
  rewrite Hreturns. done.
Qed.

End MaterializedColumns.

(** With the scenario's cache, empty at time 0: the columns of [events]
    are the empty mapping, and materializing or backfilling a property
    leaves a store, here a list of statements run, empty. *)
Lemma materialized_columns_unimplemented_witness :
  (@column.get_materialized_columns scenario_CacheFor "events" (0, ∅)).1 = ∅
  ∧ @column.cache_ok scenario_CacheFor column.get_materialized_columns_body
      (@column.get_materialized_columns scenario_CacheFor "events" (0, ∅)).2
  ∧ column.get_materialized_columns_body "events" = ∅
  ∧ column.materialize "events" "$browser" None "properties" ([] : list string)
    = ((), [])
  ∧ column.backfill_materialized_columns "events" [("$browser", "properties")]
      86400 (None : option unit) ([] : list string)
    = ((), []).
Proof.
  apply (@materialized_columns_unimplemented scenario_CacheFor (list string)
           unit "events" (0, ∅) "$browser" None "properties"
           [("$browser", "properties")] 86400 None []).
  intros args t value Hlookup. simpl in Hlookup.
  by rewrite lookup_empty in Hlookup.
Defined.

(** * Further properties of the view *)

(** ** The query filters *)

Section RequestFilterProperties.
Context {framework : Framework}.

Lemma _filter_request_key_recognized GET queryset key :
  key ∉ recognized_keys →
  _filter_request_key GET queryset key = Ok queryset.
Proof.
  intros Hkey. unfold _filter_request_key.
  repeat (rewrite decide_False;
          [|intros ->; apply Hkey; unfold recognized_keys; set_solver]).
  done.
Qed.

Lemma _filter_request_key_scope GET value queryset :
  QueryDict_lookup GET "scope" = Some value →
  _filter_request_key GET queryset "scope"
  = Ok (filter (λ a, Scope_value (Annotation.scope a) = value) queryset).
Proof.
  intros Hscope. unfold _filter_request_key, QueryDict_getitem.
  by rewrite Hscope.
Qed.

Lemma _filter_request_key_dashboard_item GET value n queryset :
  QueryDict_lookup GET "dashboardItemId" = Some value → to_pk value = Some n →
  _filter_request_key GET queryset "dashboardItemId"
  = Ok (filter (λ a, Annotation.dashboard_item_id a = Some n) queryset).
Proof.
  intros Hlookup Hn. unfold _filter_request_key, QueryDict_getitem.
  rewrite Hlookup. simpl. unfold filter_dashboard_item_id. by rewrite Hn.
Qed.

(** The loop over a list of keys of the request: each recognised key among
    them has put its condition on the rows. *)
Lemma for_each_keeps GET keys queryset :
  request_converts GET →
  (∀ key, key ∈ keys → key ∈ QueryDict_keys GET) →
  for_each (_filter_request_key GET) keys queryset
  = Ok (filter (λ a, ("after" ∈ keys → keeps_after GET a)
                     ∧ ("before" ∈ keys → keeps_before GET a)
                     ∧ ("dashboardItemId" ∈ keys → keeps_dashboard_item GET a)
                     ∧ ("scope" ∈ keys → keeps_scope GET a))
          queryset).
Proof.
  intros (Hafter & Hbefore & Hdash). revert queryset.
  induction keys as [|key keys IH]; intros queryset Hkeys.
  - simpl. f_equal. symmetry. apply filter_all.
    intros a. repeat split; by intros ?%not_elem_of_nil.
  - assert (∀ key, key ∈ keys → key ∈ QueryDict_keys GET) as Hkeys'.
    { intros k Hk. apply Hkeys. by right. }
    assert (is_Some (QueryDict_lookup GET key)) as [value Hvalue].
    { apply QueryDict_keys_lookup, Hkeys. by left. }
    change (for_each (_filter_request_key GET) (key :: keys) queryset)
      with (_filter_request_key GET queryset key
            ≫= for_each (_filter_request_key GET) keys).
    destruct (decide (key = "after")) as [->|Hna];
      [|destruct (decide (key = "before")) as [->|Hnb];
        [|destruct (decide (key = "dashboardItemId")) as [->|Hnd];
          [|destruct (decide (key = "scope")) as [->|Hns]]]].
    + destruct (Hafter value Hvalue) as [t Ht].
      rewrite (_filter_request_key_after _ _ _ _ Hvalue Ht).
      change (Ok ?q ≫= ?f) with (f q).
      rewrite IH by done. f_equal. rewrite list_filter_filter.
      apply list_filter_iff. intros a. rewrite !elem_of_cons.
      unfold keeps_after. rewrite Hvalue. simpl. rewrite Ht.
      intuition (try discriminate; auto).
    + destruct (Hbefore value Hvalue) as [t Ht].
      rewrite (_filter_request_key_before _ _ _ _ Hvalue Ht).
      change (Ok ?q ≫= ?f) with (f q).
      rewrite IH by done. f_equal. rewrite list_filter_filter.
      apply list_filter_iff. intros a. rewrite !elem_of_cons.
      unfold keeps_before. rewrite Hvalue. simpl. rewrite Ht.
      intuition (try discriminate; auto).
    + destruct (Hdash value Hvalue) as [n Hn].
      rewrite (_filter_request_key_dashboard_item _ _ _ _ Hvalue Hn).
      change (Ok ?q ≫= ?f) with (f q).
      rewrite IH by done. f_equal. rewrite list_filter_filter.
      apply list_filter_iff. intros a. rewrite !elem_of_cons.
      unfold keeps_dashboard_item. rewrite Hvalue. simpl. rewrite Hn.
      intuition (try discriminate; auto).
    + rewrite (_filter_request_key_scope _ _ _ Hvalue).
      change (Ok ?q ≫= ?f) with (f q).
      rewrite IH by done. f_equal. rewrite list_filter_filter.
      apply list_filter_iff. intros a. rewrite !elem_of_cons.
      unfold keeps_scope. rewrite Hvalue.
      intuition (try discriminate; auto).
    + rewrite _filter_request_key_recognized
        by (unfold recognized_keys; set_solver).
      change (Ok ?q ≫= ?f) with (f q).
      rewrite IH by done. f_equal.
      apply list_filter_iff. intros a. rewrite !elem_of_cons.
      intuition (try congruence; auto).
Qed.

Lemma keeps_absent GET key :
  key ∉ QueryDict_keys GET → QueryDict_lookup GET key = None.
Proof.
  intros Hkey. destruct (QueryDict_lookup GET key) eqn:Hlookup; [|done].
  exfalso. apply Hkey, QueryDict_keys_lookup. by eexists.
Qed.

Lemma _filter_request_filter GET queryset :
  request_converts GET →
  _filter_request GET queryset = Ok (filter (request_keeps GET) queryset).
Proof.
  intros Hconverts. unfold _filter_request. rewrite QueryDict_dict_keys.
  rewrite for_each_keeps by done. f_equal.
  apply list_filter_iff. intros a. unfold request_keeps. split; [|tauto].
  intros (Ha & Hb & Hd & Hs).
  assert (∀ key, key ∈ QueryDict_keys GET ∨ QueryDict_lookup GET key = None)
    as Hcases.
  { intros key. destruct (decide (key ∈ QueryDict_keys GET)); [by left|].
    right. by apply keeps_absent. }
  repeat split.
  - destruct (Hcases "after") as [?|Hnone]; [auto|].
    unfold keeps_after. by rewrite Hnone.
  - destruct (Hcases "before") as [?|Hnone]; [auto|].
    unfold keeps_before. by rewrite Hnone.
  - destruct (Hcases "dashboardItemId") as [?|Hnone]; [auto|].
    unfold keeps_dashboard_item. by rewrite Hnone.
  - destruct (Hcases "scope") as [?|Hnone]; [auto|].
    unfold keeps_scope. by rewrite Hnone.
Qed.

(** X1: when the values of [after], [before] and [dashboardItemId] convert,
    [_filter_request] returns the rows that pass all the filters present, in
    their order; the order of the parameters in the query string does not
    matter, and of a repeated parameter the last value counts. *)
Theorem _filter_request_keeps GET queryset :
  request_converts GET →
  _filter_request GET queryset = Ok (filter (request_keeps GET) queryset)
  ∧ ∀ GET',
      (∀ key, key ∈ recognized_keys →
              QueryDict_lookup GET' key = QueryDict_lookup GET key) →
      _filter_request GET' queryset = _filter_request GET queryset.
Proof.
  intros Hconverts. split; [by apply _filter_request_filter|].
  intros GET' Hsame.
  assert (QueryDict_lookup GET' "after" = QueryDict_lookup GET "after"
          ∧ QueryDict_lookup GET' "before" = QueryDict_lookup GET "before"
          ∧ QueryDict_lookup GET' "dashboardItemId"
            = QueryDict_lookup GET "dashboardItemId"
          ∧ QueryDict_lookup GET' "scope" = QueryDict_lookup GET "scope")
    as (Ha & Hb & Hd & Hs).
  { repeat split; apply Hsame; compute_done. }
  rewrite !_filter_request_filter; [|done|].
  - f_equal. apply list_filter_iff. intros a.
    unfold request_keeps, keeps_after, keeps_before, keeps_dashboard_item,
      keeps_scope.
    by rewrite Ha, Hb, Hd, Hs.
  - destruct Hconverts as (Hca & Hcb & Hcd).
    unfold request_converts. rewrite Ha, Hb, Hd. done.
Qed.

End RequestFilterProperties.

(** In the scenario: [after] is sent twice and [scope] once, after an
    unknown parameter; the rows kept are those of the request that sends
    the last [after] and the [scope] in the other order. *)
Lemma _filter_request_keeps_witness :
  @_filter_request scenario_framework
    [("utm", "x"); ("after", "300"); ("scope", "organization"); ("after", "100")]
    [a1; a2; a3; a4]
  = Ok (filter
          (@request_keeps scenario_framework
             [("utm", "x"); ("after", "300"); ("scope", "organization");
              ("after", "100")])
          [a1; a2; a3; a4])
  ∧ @_filter_request scenario_framework
      [("scope", "organization"); ("after", "100")] [a1; a2; a3; a4]
    = @_filter_request scenario_framework
        [("utm", "x"); ("after", "300"); ("scope", "organization");
         ("after", "100")]
        [a1; a2; a3; a4].
Proof.
  destruct (@_filter_request_keeps scenario_framework
              [("utm", "x"); ("after", "300"); ("scope", "organization");
               ("after", "100")]
              [a1; a2; a3; a4]) as [Hkeeps Hsame].
  - split; [|split]; intros value [= <-]; by eexists.
  - split; [exact Hkeeps|]. apply Hsame.
    intros key Hkey. unfold recognized_keys in Hkey.
    repeat (apply elem_of_cons in Hkey as [->|Hkey]; [reflexivity|]).
    by apply not_elem_of_nil in Hkey.
Defined.

Section RequestFilterErrors.
Context {framework : Framework}.





Lemma for_each_raises {A B} (f : B → A → Result B) (k : A) (l : list A)
    (acc : B) :
  k ∈ l → (∀ b, ∃ e, f b k = Raise e) → ∃ e, for_each f l acc = Raise e.
Proof.
  intros Hk Hraise. revert acc.
  induction l as [|x l IH]; intros acc; [by apply not_elem_of_nil in Hk|].
  simpl. destruct (f acc x) as [acc'|e] eqn:Hx; simpl; [|by eexists].
  apply elem_of_cons in Hk as [->|Hk]; [|by apply IH].
  destruct (Hraise acc) as [e He]. congruence.
Qed.

Lemma for_each_raised {A B} (P : Exception → Prop) (f : B → A → Result B)
    (l : list A) (acc : B) e :
  (∀ b x e, x ∈ l → f b x = Raise e → P e) →
  for_each f l acc = Raise e → P e.
Proof.
  revert acc. induction l as [|x l IH]; intros acc Hf; [done|].
  simpl. destruct (f acc x) as [acc'|e'] eqn:Hx; simpl.
  - apply IH. intros b y e'' Hy. apply Hf. by right.
  - intros [= <-]. eapply Hf; [|done]. by left.
Qed.

Lemma _filter_request_key_raised GET queryset key e :
  key ∈ QueryDict_keys GET →
  _filter_request_key GET queryset key = Raise e →
  e = ValidationError ∨ e = ValueError.
Proof.
  intros [value Hvalue]%QueryDict_keys_lookup.
  unfold _filter_request_key, QueryDict_getitem, filter_created_at__gt,
    filter_created_at__lt, filter_dashboard_item_id.
  repeat case_decide; subst; rewrite ?Hvalue; simpl; try done.
  - destruct (to_datetime value); [done|]. intros [= <-]. by left.
  - destruct (to_datetime value); [done|]. intros [= <-]. by left.
  - destruct (to_pk value); [done|]. intros [= <-]. by right.
Qed.

(** X3: a value of [after] or [before] that is no time, or a value of
    [dashboardItemId] that is no key, makes [_filter_request], and with it
    the listing, raise the store's [ValidationError] or [ValueError]; no
    rows are returned. *)
Theorem _filter_request_invalid_value self db value :
  View.action self = "list" →
  is_Some (team_table db !! View.team_id self) →
  (QueryDict_lookup (View.GET self) "after" = Some value
   ∧ to_datetime value = None)
  ∨ (QueryDict_lookup (View.GET self) "before" = Some value
     ∧ to_datetime value = None)
  ∨ (QueryDict_lookup (View.GET self) "dashboardItemId" = Some value
     ∧ to_pk value = None) →
  ∃ e,
    (e = ValidationError ∨ e = ValueError)
    ∧ (∀ queryset, ∃ e',
         _filter_request (View.GET self) queryset = Raise e'
         ∧ (e' = ValidationError ∨ e' = ValueError))
    ∧ list_action self db = Raise e.
Proof.
  intros Haction [organization Hteam] Hbad.
  assert (∀ queryset, ∃ e',
            _filter_request (View.GET self) queryset = Raise e'
            ∧ (e' = ValidationError ∨ e' = ValueError)) as Hraise.
  { intros queryset. unfold _filter_request. rewrite QueryDict_dict_keys.
    assert (∃ e', for_each (_filter_request_key (View.GET self))
                    (QueryDict_keys (View.GET self)) queryset = Raise e')
      as [e' He'].
    { destruct Hbad as [[Hl Hc]|[[Hl Hc]|[Hl Hc]]].
      - apply (for_each_raises _ "after").
        + apply QueryDict_keys_lookup. by eexists.
        + intros q. unfold _filter_request_key, QueryDict_getitem.
          rewrite Hl. simpl. unfold filter_created_at__gt. rewrite Hc.
          by eexists.
      - apply (for_each_raises _ "before").
        + apply QueryDict_keys_lookup. by eexists.
        + intros q. unfold _filter_request_key, QueryDict_getitem.
          rewrite Hl. simpl. unfold filter_created_at__lt. rewrite Hc.
          by eexists.
      - apply (for_each_raises _ "dashboardItemId").
        + apply QueryDict_keys_lookup. by eexists.
        + intros q. unfold _filter_request_key, QueryDict_getitem.
          rewrite Hl. simpl. unfold filter_dashboard_item_id. rewrite Hc.
          by eexists. }
    exists e'. split; [done|].
    eapply (for_each_raised (λ e, e = ValidationError ∨ e = ValueError));
      [|done].
    intros q key e Hkey. by apply _filter_request_key_raised. }
  rewrite list_action_list by done.
  rewrite (scoped_of_team _ _ _ Hteam). simpl.
  destruct (Hraise (filter (λ a,
              Annotation.team_id a = View.team_id self
              ∨ (Annotation.scope a = Annotation.ORGANIZATION
                 ∧ Annotation.organization_id a = organization))
            (annotation_table db))) as (e & He & Hclass).
  exists e. rewrite He. done.
Qed.

(** X4: only the [list] action reads the query filters and the sort key.
    Under every other action the queryset is the same whatever the query
    parameters are, and none of them, however malformed, makes
    [get_queryset] raise. *)
Theorem get_queryset_detail_ignores_parameters self db :
  View.action self ≠ "list" →
  is_Some (team_table db !! View.team_id self) →
  ∃ queryset,
    get_queryset self db = Ok queryset
    ∧ ∀ GET,
        get_queryset
          (View.mk (View.action self) (View.team_id self) (View.user self) GET)
          db = Ok queryset.
Proof.
  intros Haction [organization Hteam].
  rewrite get_queryset_detail by done.
  rewrite (scoped_of_team _ _ _ Hteam). simpl. eexists. split; [done|].
  intros GET. rewrite get_queryset_detail by done.
  by rewrite (scoped_of_team _ _ organization).
Qed.

(** X5: when [before] is not later than [after], the window is empty and
    the listing is the empty list, not an error. *)
Theorem list_empty_window self db T1 T2 s1 s2 :
  View.action self = "list" →
  is_Some (team_table db !! View.team_id self) →
  QueryDict_lookup (View.GET self) "after" = Some s1 →
  to_datetime s1 = Some T1 →
  QueryDict_lookup (View.GET self) "before" = Some s2 →
  to_datetime s2 = Some T2 →
  (∀ value, QueryDict_lookup (View.GET self) "dashboardItemId" = Some value →
            is_Some (to_pk value)) →
  QueryDict_lookup (View.GET self) "order" = None →
  T2 ≤ T1 →
  list_action self db = Ok [].
Proof.
  intros Haction [organization Hteam] Hafter HT1 Hbefore HT2 Hdash Horder Hle.
  rewrite list_action_list by done.
  rewrite (scoped_of_team _ _ _ Hteam).
  change (Ok ?q ≫= ?f) with (f q). cbv beta.
  rewrite _filter_request_filter.
  2:{ split; [|split]; [| |done].
      - intros value. rewrite Hafter. intros [= <-]. by eexists.
      - intros value. rewrite Hbefore. intros [= <-]. by eexists. }
  rewrite filter_none.
  2:{ intros a _ (Ha & Hb & _). unfold keeps_after, keeps_before in *.
      rewrite Hafter in Ha. rewrite Hbefore in Hb. simpl in *.
      rewrite HT1 in Ha. rewrite HT2 in Hb. lia. }
  unfold QueryDict_get. rewrite Horder.
  change (default "-date_marker" None) with "-date_marker".
  change (Ok ?q ≫= ?f) with (f q). cbv beta.
  rewrite order_by_default.
  change (Ok ?q ≫= ?f) with (f q). cbv beta.
  unfold filter_queryset.
  destruct (QueryDict_lookup (View.GET self) "search"); [|reflexivity].
  simpl. case_decide; reflexivity.
Qed.

End RequestFilterErrors.


(** In the scenario, team 1 lists with [after=yesterday]. *)
Lemma _filter_request_invalid_value_witness :
  ∃ e,
    (e = ValidationError ∨ e = ValueError)
    ∧ (∀ queryset, ∃ e',
         @_filter_request scenario_framework [("after", "yesterday")] queryset
           = Raise e'
         ∧ (e' = ValidationError ∨ e' = ValueError))
    ∧ @list_action scenario_framework
        (as_team "list" 1 [("after", "yesterday")]) scenario_db = Raise e.
Proof.
  apply (@_filter_request_invalid_value scenario_framework
           (as_team "list" 1 [("after", "yesterday")]) scenario_db
           "yesterday").
  - reflexivity.
  - by exists 10.
  - left. split; reflexivity.
Defined.

(** In the scenario, team 1 retrieves with an unknown sort key and an
    unreadable [after]. *)
Lemma get_queryset_detail_ignores_parameters_witness :
  ∃ queryset,
    @get_queryset scenario_framework
      (as_team "retrieve" 1 [("order", "nope"); ("after", "yesterday")])
      scenario_db = Ok queryset
    ∧ ∀ GET,
        @get_queryset scenario_framework (View.mk "retrieve" 1 7 GET)
          scenario_db = Ok queryset.
Proof.
  apply (@get_queryset_detail_ignores_parameters scenario_framework
           (as_team "retrieve" 1 [("order", "nope"); ("after", "yesterday")])
           scenario_db).
  - done.
  - by exists 10.
Defined.

(** In the scenario, team 1 lists what was created after 300 and before
    100. *)
Lemma list_empty_window_witness :
  @list_action scenario_framework
    (as_team "list" 1 [("after", "300"); ("before", "100")]) scenario_db
  = Ok [].
Proof.
  apply (@list_empty_window scenario_framework
           (as_team "list" 1 [("after", "300"); ("before", "100")])
           scenario_db 300 100 "300" "100").
  - reflexivity.
  - by exists 10.
  - reflexivity.
  - reflexivity.
  - reflexivity.
  - reflexivity.
  - intros value [=].
  - reflexivity.
  - lia.
Defined.

(** ** Objects in and out of reach *)

Section Reach.
Context {framework : Framework}.

Lemma get_queryset_detail_scoped self db organization :
  View.action self ≠ "list" →
  team_table db !! View.team_id self = Some organization →
  get_queryset self db
  = Ok (if decide (View.action self ≠ "partial_update")
        then filter (λ a, Annotation.deleted a = false)
               (filter (in_scope (View.team_id self) organization)
                  (annotation_table db))
        else filter (in_scope (View.team_id self) organization)
               (annotation_table db)).
Proof.
  intros Haction Hteam. rewrite get_queryset_detail by done.
  by rewrite (scoped_of_team _ _ _ Hteam).
Qed.

Lemma get_object_none self pk db organization :
  View.action self ≠ "list" →
  team_table db !! View.team_id self = Some organization →
  (∀ a, a ∈ annotation_table db → Annotation.id a = pk →
        ¬ in_scope (View.team_id self) organization a
        ∨ (View.action self ≠ "partial_update"
           ∧ Annotation.deleted a = true)) →
  get_object self pk db = Raise Http404.
Proof.
  intros Haction Hteam Hnone. unfold get_object.
  rewrite (get_queryset_detail_scoped _ _ organization) by done. simpl.
  rewrite filter_none; [done|].
  intros a Ha%filter_queryset_incl Hpk.
  case_decide as Hpartial.
  - apply list_elem_of_filter in Ha as [Hlive Ha].
    apply list_elem_of_filter in Ha as [Hscope Ha].
    destruct (Hnone a Ha Hpk) as [?|[_ ?]]; [done|congruence].
  - apply list_elem_of_filter in Ha as [Hscope Ha].
    destruct (Hnone a Ha Hpk) as [?|[? _]]; done.
Qed.

Lemma get_object_some self db organization a :
  View.action self ≠ "list" →
  NoDup (Annotation.id <$> annotation_table db) →
  team_table db !! View.team_id self = Some organization →
  a ∈ annotation_table db →
  in_scope (View.team_id self) organization a →
  (View.action self ≠ "partial_update" → Annotation.deleted a = false) →
  QueryDict_lookup (View.GET self) "search" = None →
  get_object self (Annotation.id a) db = Ok a.
Proof.
  intros Haction Hnodup Hteam Ha Hscope Hlive Hsearch.
  eapply get_object_found.
  - by apply get_queryset_detail_scoped.
  - case_decide; repeat apply NoDup_pk_filter; done.
  - rewrite filter_queryset_no_search by done.
    case_decide; rewrite ?list_elem_of_filter; auto.
Qed.

Lemma pk_unique (l : QuerySet) a b :
  NoDup (Annotation.id <$> l) → a ∈ l → b ∈ l →
  Annotation.id a = Annotation.id b → a = b.
Proof.
  intros Hnodup Ha Hb Hpk.
  assert (b ∈ filter (λ x, Annotation.id x = Annotation.id a) l) as Hin.
  { by apply list_elem_of_filter. }
  rewrite (filter_pk_unique l a) in Hin by done.
  by apply list_elem_of_singleton in Hin.
Qed.

Lemma list_action_in_table self db result a :
  list_action self db = Ok result → a ∈ result →
  a ∈ annotation_table db.
Proof.
  intros (queryset & Hget & ->)%list_action_incl Ha%filter_queryset_incl.
  apply get_queryset_incl in Hget as (scoped & Hscoped & Hincl).
  apply Hincl in Ha.
  apply scoping_inv in Hscoped as (organization & _ & ->).
  by apply list_elem_of_filter in Ha as [_ ?].
Qed.

(** A soft-deleted row is out of reach of everything but a partial
    update. *)
Lemma deleted_row_hidden db a :
  NoDup (Annotation.id <$> annotation_table db) →
  a ∈ annotation_table db →
  Annotation.deleted a = true →
  (∀ viewer,
     View.action viewer ≠ "list" → View.action viewer ≠ "partial_update" →
     is_Some (team_table db !! View.team_id viewer) →
     get_object viewer (Annotation.id a) db = Raise Http404)
  ∧ (∀ viewer result b,
       View.action viewer = "list" → list_action viewer db = Ok result →
       b ∈ result → Annotation.id b ≠ Annotation.id a).
Proof.
  intros Hnodup Ha Hdeleted. split.
  - intros viewer Hlist Hpartial [organization Hteam].
    apply (get_object_none _ _ _ organization); [done..|].
    intros b Hb Hpk. right. split; [done|].
    by rewrite (pk_unique _ b a Hnodup Hb Ha Hpk).
  - intros viewer result b Haction Hlist Hb Hpk.
    pose proof (list_action_not_deleted _ _ _ _ Haction Hlist Hb) as Hlive.
    pose proof (list_action_in_table _ _ _ _ Hlist Hb) as Hin.
    rewrite (pk_unique _ b a Hnodup Hin Ha Hpk) in Hlive. congruence.
Qed.

(** X6: a primary key that no row in the requester's scope has is answered
    not-found by retrieval and by both updates, and the update changes
    nothing: an annotation of another organization, or a project-scoped one
    of another team, cannot be read or written through the view. *)
Theorem out_of_scope_not_found self pk data now db organization :
  View.action self ≠ "list" →
  team_table db !! View.team_id self = Some organization →
  (∀ a, a ∈ annotation_table db → Annotation.id a = pk →
        ¬ in_scope (View.team_id self) organization a) →
  get_object self pk db = Raise Http404
  ∧ update_action self pk data now db = Raise Http404
  ∧ respond db (update_action self pk data now db) = (Raise Http404, db, []).
Proof.
  intros Haction Hteam Hnone.
  assert (get_object self pk db = Raise Http404) as Hget.
  { apply (get_object_none _ _ _ organization); [done..|]. auto. }
  split; [done|]. unfold update_action. by rewrite Hget.
Qed.

(** X8: an annotation created without [deleted] set can be retrieved by
    its primary key by every member of the team that created it, and is in
    the team's next listing. *)
Theorem create_then_retrieve self data now db annotation db' events viewer :
  db_consistent db →
  create_action self data now db = Ok (annotation, db', events) →
  Annotation.deleted annotation = false →
  View.team_id viewer = View.team_id self →
  View.action viewer ≠ "list" →
  QueryDict_lookup (View.GET viewer) "search" = None →
  get_object viewer (Annotation.id annotation) db' = Ok annotation
  ∧ ∃ result,
      list_action (View.mk "list" (View.team_id self) (View.user viewer) [])
        db' = Ok result
      ∧ annotation ∈ result.
Proof.
  intros Hdb Hcreate Hlive Hteam_eq Haction Hsearch.
  pose proof (create_action_consistent _ _ _ _ _ _ _ Hcreate Hdb)
    as (Hnodup & _ & _).
  apply create_action_inv in Hcreate
    as (validated_data & organization & _ & Hteam & Hcreate).
  unfold Annotation_objects_create in Hcreate.
  injection Hcreate as Hannotation Hdb' _.
  assert (annotation ∈ annotation_table db') as Hin.
  { rewrite <- Hdb'. simpl. apply elem_of_app. right.
    rewrite Hannotation. by left. }
  assert (team_table db' = team_table db) as Hteams by by rewrite <- Hdb'.
  assert (Annotation.team_id annotation = View.team_id self) as Hown
    by by rewrite <- Hannotation.
  split.
  - apply (get_object_some _ _ organization); try done.
    + by rewrite Hteams, Hteam_eq.
    + left. by rewrite Hteam_eq.
  - eexists. split.
    + apply (list_action_no_parameters _ _ organization); [done..|].
      simpl. by rewrite Hteams.
    + apply list_elem_of_filter. split; [done|].
      rewrite merge_sort_Permutation. apply list_elem_of_filter.
      split; [by left|done].
Qed.

(** X9: an annotation created with [deleted] set to true is stored, yet
    retrieval and the full update answer not-found for it and no listing
    shows it. *)
Theorem create_deleted_hidden self data now db annotation db' events :
  db_consistent db →
  create_action self data now db = Ok (annotation, db', events) →
  Annotation.deleted annotation = true →
  annotation ∈ annotation_table db'
  ∧ (∀ viewer,
       View.action viewer ≠ "list" → View.action viewer ≠ "partial_update" →
       is_Some (team_table db' !! View.team_id viewer) →
       get_object viewer (Annotation.id annotation) db' = Raise Http404)
  ∧ (∀ viewer result b,
       View.action viewer = "list" → list_action viewer db' = Ok result →
       b ∈ result → Annotation.id b ≠ Annotation.id annotation).
Proof.
  intros Hdb Hcreate Hdeleted.
  pose proof (create_action_consistent _ _ _ _ _ _ _ Hcreate Hdb)
    as (Hnodup & _ & _).
  apply create_action_inv in Hcreate
    as (validated_data & organization & _ & Hteam & Hcreate).
  unfold Annotation_objects_create in Hcreate.
  injection Hcreate as Hannotation Hdb' _.
  assert (annotation ∈ annotation_table db') as Hin.
  { rewrite <- Hdb'. simpl. apply elem_of_app. right.
    rewrite Hannotation. by left. }
  split; [done|]. by apply deleted_row_hidden.
Qed.

End Reach.

(** In the scenario, team 3 addresses annotation 1 of team 1. *)
Lemma out_of_scope_not_found_witness :
  @get_object scenario_framework (as_team "update" 3 []) 1 scenario_db
    = Raise Http404
  ∧ @update_action scenario_framework (as_team "update" 3 []) 1
      {[ "content" := JString "mine" ]} 500 scenario_db = Raise Http404
  ∧ respond scenario_db
      (@update_action scenario_framework (as_team "update" 3 []) 1
         {[ "content" := JString "mine" ]} 500 scenario_db)
    = (Raise Http404, scenario_db, []).
Proof.
  apply (@out_of_scope_not_found scenario_framework (as_team "update" 3 [])
           1 {[ "content" := JString "mine" ]} 500 scenario_db 20).
  - done.
  - reflexivity.
  - intros a Ha Hpk. vm_compute in Ha.
    repeat (apply elem_of_cons in Ha as [->|Ha];
            [try (by vm_compute in Hpk); intros [?|[? ?]]; done|]).
    by apply not_elem_of_nil in Ha.
Defined.

(** In the scenario, user 7 creates an annotation as team 1 and retrieves
    it. *)
Lemma create_then_retrieve_witness :
  let created :=
    Annotation.mk 5 (Some "launch") None "USR" None (Some 7) 500 500 false
      Annotation.PROJECT 1 10 in
  let db' := mkDB (team_table scenario_db) [a1; a2; a3; a4; created] 6 in
  @get_object scenario_framework (as_team "retrieve" 1 []) 5 db' = Ok created
  ∧ ∃ result,
      @list_action scenario_framework (View.mk "list" 1 7 []) db' = Ok result
      ∧ created ∈ result.
Proof.
  intros created db'.
  apply (@create_then_retrieve scenario_framework (as_team "create" 1 [])
           {[ "content" := JString "launch" ]} 500 scenario_db created db'
           (annotation_created created true) (as_team "retrieve" 1 [])).
  - split; [compute_done|]. split; repeat constructor.
  - vm_compute. reflexivity.
  - reflexivity.
  - reflexivity.
  - done.
  - reflexivity.
Defined.

(** In the scenario, user 7 creates an annotation with [deleted] set. *)
Lemma create_deleted_hidden_witness :
  let created :=
    Annotation.mk 5 (Some "draft") None "USR" None (Some 7) 500 500 true
      Annotation.PROJECT 1 10 in
  let db' := mkDB (team_table scenario_db) [a1; a2; a3; a4; created] 6 in
  created ∈ annotation_table db'
  ∧ (∀ viewer,
       View.action viewer ≠ "list" → View.action viewer ≠ "partial_update" →
       is_Some (team_table db' !! View.team_id viewer) →
       @get_object scenario_framework viewer (Annotation.id created) db'
         = Raise Http404)
  ∧ (∀ viewer result b,
       View.action viewer = "list" →
       @list_action scenario_framework viewer db' = Ok result →
       b ∈ result → Annotation.id b ≠ Annotation.id created).
Proof.
  intros created db'.
  apply (@create_deleted_hidden scenario_framework (as_team "create" 1 [])
           {[ "content" := JString "draft"; "deleted" := JBool true ]} 500
           scenario_db created db' (annotation_created created true)).
  - split; [compute_done|]. split; repeat constructor.
  - vm_compute. reflexivity.
  - reflexivity.
Defined.

(** ** What an update changes *)

Section UpdateEffects.
Context {framework : Framework}.

Lemma field_input_writable data name :
  name ∈ writable_fields → field_input data name = data !! name.
Proof. intros Hname. unfold field_input. by rewrite decide_True. Qed.

Lemma to_internal_value_absent data validated_data :
  to_internal_value data = Ok validated_data →
  (data !! "content" = None → Validated.content validated_data = None)
  ∧ (data !! "date_marker" = None →
     Validated.date_marker validated_data = None)
  ∧ (data !! "dashboard_item" = None →
     Validated.dashboard_item validated_data = None)
  ∧ (data !! "deleted" = None → Validated.deleted validated_data = None)
  ∧ (data !! "scope" = None → Validated.scope validated_data = None).
Proof.
  unfold to_internal_value.
  rewrite !field_input_writable by compute_done.
  destruct (validate_content _) as [content|] eqn:Hc; [|done]. simpl.
  destruct (validate_date_marker _) as [date_marker|] eqn:Hm; [|done]. simpl.
  destruct (validate_dashboard_item _) as [dashboard_item|] eqn:Hi; [|done].
  simpl.
  destruct (validate_deleted _) as [deleted|] eqn:Hd; [|done]. simpl.
  destruct (validate_scope _) as [scope|] eqn:Hs; [|done]. simpl.
  intros [= <-]. simpl.
  repeat split; intros Habsent.
  - rewrite Habsent in Hc. by injection Hc.
  - rewrite Habsent in Hm. by injection Hm.
  - rewrite Habsent in Hi. by injection Hi.
  - rewrite Habsent in Hd. by injection Hd.
  - rewrite Habsent in Hs. by injection Hs.
Qed.

Lemma update_action_saved self pk data now db annotation db' events :
  update_action self pk data now db = Ok (annotation, db', events) →
  ∃ instance validated_data,
    get_object self pk db = Ok instance
    ∧ to_internal_value data = Ok validated_data
    ∧ instance ∈ annotation_table db
    ∧ Annotation.id instance = pk
    ∧ annotation
      = (Annotation_save
           (set_validated (set_team_id instance (View.team_id self))
              validated_data) now db).1.1
    ∧ annotation ∈ annotation_table db'
    ∧ annotation_table db'
      = (λ a, if decide (Annotation.id a = pk) then annotation else a)
        <$> annotation_table db
    ∧ team_table db' = team_table db
    ∧ annotation_id_seq db' = annotation_id_seq db.
Proof.
  intros (instance & validated_data & Hget & Hvalid & Hupdate)%update_action_inv.
  pose proof Hget as (_ & _ & Hin & Hpk & _)%get_object_in_table.
  unfold AnnotationSerializer_update, ModelSerializer_update in Hupdate.
  set (edited := set_validated (set_team_id instance (View.team_id self))
                   validated_data) in *.
  pose proof (Annotation_save_stored edited now db) as Hstored.
  destruct (Annotation_save_existing edited now db)
    as (_ & Htable & Hteams & Hseq); [by exists instance|].
  rewrite Hupdate in Hstored, Htable, Hteams, Hseq. simpl in *.
  exists instance, validated_data.
  fold edited. rewrite Hupdate. simpl. subst pk. done.
Qed.

(** X10: an update never changes the primary key, the creation type, the
    author, the creation time or the organization of the annotation it
    addresses; it sets [updated_at] to the time of the request, and a
    writable field the body leaves out keeps its value. *)
Theorem update_keeps_columns self pk data now db annotation db' events :
  update_action self pk data now db = Ok (annotation, db', events) →
  ∃ instance,
    get_object self pk db = Ok instance
    ∧ Annotation.id annotation = pk
    ∧ Annotation.id instance = pk
    ∧ Annotation.creation_type annotation = Annotation.creation_type instance
    ∧ Annotation.created_by annotation = Annotation.created_by instance
    ∧ Annotation.created_at annotation = Annotation.created_at instance
    ∧ Annotation.organization_id annotation
      = Annotation.organization_id instance
    ∧ Annotation.updated_at annotation = now
    ∧ (data !! "content" = None →
       Annotation.content annotation = Annotation.content instance)
    ∧ (data !! "date_marker" = None →
       Annotation.date_marker annotation = Annotation.date_marker instance)
    ∧ (data !! "dashboard_item" = None →
       Annotation.dashboard_item_id annotation
       = Annotation.dashboard_item_id instance)
    ∧ (data !! "deleted" = None →
       Annotation.deleted annotation = Annotation.deleted instance)
    ∧ (data !! "scope" = None →
       Annotation.scope annotation = Annotation.scope instance).
Proof.
  intros (instance & validated_data & Hget & Hvalid & _ & Hpk & -> & _)
    %update_action_saved.
  apply to_internal_value_absent in Hvalid as (Hc & Hm & Hi & Hd & Hs).
  exists instance. rewrite Annotation_save_result. simpl.
  repeat split; try done.
  - intros Habsent. by rewrite Hc.
  - intros Habsent. by rewrite Hm.
  - intros Habsent. by rewrite Hi.
  - intros Habsent. by rewrite Hd.
  - intros Habsent. by rewrite Hs.
Qed.

(** X11: an update rewrites the row with the addressed primary key and
    nothing else: every other row, the number of rows, the teams and the
    primary-key sequence stay as they were. *)
Theorem update_touches_one_row self pk data now db annotation db' events :
  update_action self pk data now db = Ok (annotation, db', events) →
  annotation_table db'
    = ((λ a, if decide (Annotation.id a = pk) then annotation else a)
       <$> annotation_table db)
  ∧ length (annotation_table db') = length (annotation_table db)
  ∧ (∀ a, a ∈ annotation_table db → Annotation.id a ≠ pk →
          a ∈ annotation_table db')
  ∧ (∀ a, a ∈ annotation_table db' → a = annotation ∨ a ∈ annotation_table db)
  ∧ team_table db' = team_table db
  ∧ annotation_id_seq db' = annotation_id_seq db.
Proof.
  intros (instance & validated_data & _ & _ & _ & _ & _ & _ & Htable & Hteams
          & Hseq)%update_action_saved.
  split; [done|]. rewrite Htable. split; [by rewrite length_fmap|].
  split; [|split; [|done]].
  - intros a Ha Hne. apply list_elem_of_fmap. exists a.
    by rewrite decide_False.
  - intros a (b & -> & Hb)%list_elem_of_fmap. case_decide; auto.
Qed.

(** X12: after an update the annotation belongs to the team the request was
    made for, whichever team it belonged to: it is in that team's scope, and
    when its scope is PROJECT it is in no other team's scope, the team it
    came from included. *)
Theorem update_transfers_ownership self pk data now db annotation db' events :
  update_action self pk data now db = Ok (annotation, db', events) →
  Annotation.team_id annotation = View.team_id self
  ∧ (∀ viewer scoped,
       View.team_id viewer = View.team_id self →
       StructuredViewSetMixin_get_queryset viewer db' = Ok scoped →
       annotation ∈ scoped)
  ∧ (∀ viewer scoped,
       View.team_id viewer ≠ View.team_id self →
       Annotation.scope annotation = Annotation.PROJECT →
       StructuredViewSetMixin_get_queryset viewer db' = Ok scoped →
       annotation ∉ scoped).
Proof.
  intros (instance & validated_data & _ & _ & _ & _ & Hsaved & Hstored & _)
    %update_action_saved.
  assert (Annotation.team_id annotation = View.team_id self) as Hteam.
  { rewrite Hsaved, Annotation_save_result. done. }
  split; [done|]. split.
  - intros viewer scoped Hviewer (organization & _ & ->)%scoping_inv.
    apply list_elem_of_filter. split; [|done]. left. congruence.
  - intros viewer scoped Hviewer Hscope (organization & _ & ->)%scoping_inv.
    intros [[?|[? _]] _]%list_elem_of_filter; congruence.
Qed.

(** X13: an update that leaves the annotation with [deleted] set keeps the
    row in the table, and from then on retrieval and the full update answer
    not-found for its primary key and no listing shows it. *)
Theorem update_soft_deletes self pk data now db annotation db' events :
  db_consistent db →
  update_action self pk data now db = Ok (annotation, db', events) →
  Annotation.deleted annotation = true →
  annotation ∈ annotation_table db'
  ∧ Annotation.id annotation = pk
  ∧ length (annotation_table db') = length (annotation_table db)
  ∧ (∀ viewer,
       View.action viewer ≠ "list" → View.action viewer ≠ "partial_update" →
       is_Some (team_table db' !! View.team_id viewer) →
       get_object viewer pk db' = Raise Http404)
  ∧ (∀ viewer result b,
       View.action viewer = "list" → list_action viewer db' = Ok result →
       b ∈ result → Annotation.id b ≠ pk).
Proof.
  intros Hdb Hupdate Hdeleted.
  pose proof (update_action_consistent _ _ _ _ _ _ _ _ Hupdate Hdb)
    as (Hnodup & _ & _).
  apply update_action_saved in Hupdate
    as (instance & validated_data & _ & _ & _ & Hpk & Hsaved & Hstored
        & Htable & _).
  assert (Annotation.id annotation = pk) as Hid.
  { rewrite Hsaved, Annotation_save_result. done. }
  split; [done|]. split; [done|].
  split; [by rewrite Htable, length_fmap|].
  rewrite <- Hid. by apply deleted_row_hidden.
Qed.

End UpdateEffects.

(** In the scenario, team 1 narrows the organization-wide annotation 2 of
    team 2 to a project annotation with a partial update at time 500. *)
Lemma update_keeps_columns_witness :
  let data : gmap string JSON := {[ "scope" := JString "project" ]} in
  let moved :=
    Annotation.mk 2 (Some "campaign") (Some 200) "USR" None (Some 8) 200 500
      false Annotation.PROJECT 1 10 in
  ∃ instance,
    @get_object scenario_framework (as_team "partial_update" 1 []) 2
      scenario_db = Ok instance
    ∧ Annotation.id moved = 2
    ∧ Annotation.id instance = 2
    ∧ Annotation.creation_type moved = Annotation.creation_type instance
    ∧ Annotation.created_by moved = Annotation.created_by instance
    ∧ Annotation.created_at moved = Annotation.created_at instance
    ∧ Annotation.organization_id moved = Annotation.organization_id instance
    ∧ Annotation.updated_at moved = 500
    ∧ (data !! "content" = None →
       Annotation.content moved = Annotation.content instance)
    ∧ (data !! "date_marker" = None →
       Annotation.date_marker moved = Annotation.date_marker instance)
    ∧ (data !! "dashboard_item" = None →
       Annotation.dashboard_item_id moved
       = Annotation.dashboard_item_id instance)
    ∧ (data !! "deleted" = None →
       Annotation.deleted moved = Annotation.deleted instance)
    ∧ (data !! "scope" = None →
       Annotation.scope moved = Annotation.scope instance).
Proof.
  intros data moved.
  apply (@update_keeps_columns scenario_framework
           (as_team "partial_update" 1 []) 2 data 500 scenario_db moved
           (mkDB (team_table scenario_db) [a1; moved; a3; a4] 5)
           [report_user_action 8 "annotation updated" moved]).
  vm_compute. reflexivity.
Defined.

Lemma update_touches_one_row_witness :
  let moved :=
    Annotation.mk 2 (Some "campaign") (Some 200) "USR" None (Some 8) 200 500
      false Annotation.PROJECT 1 10 in
  let db' := mkDB (team_table scenario_db) [a1; moved; a3; a4] 5 in
  annotation_table db'
    = ((λ a, if decide (Annotation.id a = 2) then moved else a)
       <$> annotation_table scenario_db)
  ∧ length (annotation_table db') = length (annotation_table scenario_db)
  ∧ (∀ a, a ∈ annotation_table scenario_db → Annotation.id a ≠ 2 →
          a ∈ annotation_table db')
  ∧ (∀ a, a ∈ annotation_table db' →
          a = moved ∨ a ∈ annotation_table scenario_db)
  ∧ team_table db' = team_table scenario_db
  ∧ annotation_id_seq db' = annotation_id_seq scenario_db.
Proof.
  intros moved db'.
  apply (@update_touches_one_row scenario_framework
           (as_team "partial_update" 1 []) 2
           {[ "scope" := JString "project" ]} 500 scenario_db moved db'
           [report_user_action 8 "annotation updated" moved]).
  vm_compute. reflexivity.
Defined.

(** Afterwards the annotation is team 1's and team 2, which wrote it, no
    longer has it in scope. *)
Lemma update_transfers_ownership_witness :
  let moved :=
    Annotation.mk 2 (Some "campaign") (Some 200) "USR" None (Some 8) 200 500
      false Annotation.PROJECT 1 10 in
  let db' := mkDB (team_table scenario_db) [a1; moved; a3; a4] 5 in
  Annotation.team_id moved = 1
  ∧ (∀ viewer scoped,
       View.team_id viewer = 1 →
       StructuredViewSetMixin_get_queryset viewer db' = Ok scoped →
       moved ∈ scoped)
  ∧ (∀ viewer scoped,
       View.team_id viewer ≠ 1 →
       Annotation.scope moved = Annotation.PROJECT →
       StructuredViewSetMixin_get_queryset viewer db' = Ok scoped →
       moved ∉ scoped).
Proof.
  intros moved db'.
  apply (@update_transfers_ownership scenario_framework
           (as_team "partial_update" 1 []) 2
           {[ "scope" := JString "project" ]} 500 scenario_db moved db'
           [report_user_action 8 "annotation updated" moved]).
  vm_compute. reflexivity.
Defined.

(** In the scenario, team 2 soft-deletes its annotation 2 with a full
    update. *)
Lemma update_soft_deletes_witness :
  let removed :=
    Annotation.mk 2 (Some "campaign") (Some 200) "USR" None (Some 8) 200 500
      true Annotation.ORGANIZATION 2 10 in
  let db' := mkDB (team_table scenario_db) [a1; removed; a3; a4] 5 in
  removed ∈ annotation_table db'
  ∧ Annotation.id removed = 2
  ∧ length (annotation_table db') = length (annotation_table scenario_db)
  ∧ (∀ viewer,
       View.action viewer ≠ "list" → View.action viewer ≠ "partial_update" →
       is_Some (team_table db' !! View.team_id viewer) →
       @get_object scenario_framework viewer 2 db' = Raise Http404)
  ∧ (∀ viewer result b,
       View.action viewer = "list" →
       @list_action scenario_framework viewer db' = Ok result →
       b ∈ result → Annotation.id b ≠ 2).
Proof.
  intros removed db'.
  apply (@update_soft_deletes scenario_framework (as_team "update" 2 []) 2
           {[ "deleted" := JBool true ]} 500 scenario_db removed db'
           [report_user_action 8 "annotation updated" removed]).
  - split; [compute_done|]. split; repeat constructor.
  - vm_compute. reflexivity.
  - reflexivity.
Defined.

(** ** Sequences of requests *)

Section ServingProperties.
Context {framework : Framework}.

Lemma Annotation_save_keys instance now db :
  (Annotation.id <$> annotation_table db)
    `prefix_of`
  (Annotation.id <$> annotation_table (Annotation_save instance now db).1.2).
Proof.
  unfold Annotation_save. case_decide; simpl.
  - rewrite <- list_fmap_compose.
    erewrite (list_fmap_ext (Annotation.id ∘ _)); [done|].
    intros i a _. simpl. by case_decide.
  - rewrite fmap_app. by apply prefix_app_r.
Qed.

Lemma dispatch_keys self pk data now db :
  (Annotation.id <$> annotation_table db)
    `prefix_of`
  (Annotation.id <$> annotation_table (dispatch self pk data now db).1.2).
Proof.
  unfold dispatch. repeat case_decide; simpl; try done.
  - by destruct (get_object self pk db).
  - destruct (create_action self data now db) as [[[a db'] events]|] eqn:Hc;
      simpl; [|done].
    apply create_action_inv in Hc as (vd & organization & _ & _ & Hc).
    unfold Annotation_objects_create in Hc. injection Hc as _ <- _. simpl.
    rewrite fmap_app. by apply prefix_app_r.
  - destruct (update_action self pk data now db) as [[[a db'] events]|] eqn:Hu;
      simpl; [|done].
    apply update_action_inv in Hu as (instance & vd & _ & _ & Hu).
    unfold AnnotationSerializer_update, ModelSerializer_update in Hu.
    pose proof (Annotation_save_keys
                  (set_validated (set_team_id instance (View.team_id self)) vd)
                  now db) as Hkeys.
    by rewrite Hu in Hkeys.
Qed.

Lemma dispatch_teams self pk data now db :
  team_table (dispatch self pk data now db).1.2 = team_table db.
Proof.
  unfold dispatch. repeat case_decide; simpl; try done.
  - by destruct (get_object self pk db).
  - destruct (create_action self data now db) as [[[a db'] events]|] eqn:Hc;
      simpl; [|done].
    apply create_action_inv in Hc as (vd & organization & _ & _ & Hc).
    unfold Annotation_objects_create in Hc. by injection Hc as _ <- _.
  - destruct (update_action self pk data now db) as [[[a db'] events]|] eqn:Hu;
      simpl; [|done].
    apply update_action_inv in Hu as (instance & vd & _ & _ & Hu).
    unfold AnnotationSerializer_update, ModelSerializer_update in Hu.
    unfold Annotation_save in Hu. case_decide; by injection Hu as _ <- _.
Qed.

(** X14: the constraints of the annotation table hold after every sequence
    of requests to the view set when they held before it: primary keys stay
    unique and below the sequence, and every annotation keeps the
    organization of the team it belongs to, also when an update moves it to
    another team. *)
Theorem serve_consistent requests db :
  db_consistent db → db_consistent (serve requests db).
Proof.
  revert db. induction requests as [|r requests IH]; intros db Hdb; [done|].
  simpl. apply IH. by apply dispatch_consistent.
Qed.

(** X15: no request removes a row or touches the teams: after every
    sequence of requests the primary keys in the table are those it had, in
    their order, followed by those of the annotations created since.  There
    is no hard delete, whatever the action names and bodies sent. *)
Theorem serve_never_deletes requests db :
  (Annotation.id <$> annotation_table db)
    `prefix_of` (Annotation.id <$> annotation_table (serve requests db))
  ∧ (length (annotation_table db)
     ≤ length (annotation_table (serve requests db)))%nat
  ∧ team_table (serve requests db) = team_table db.
Proof.
  assert ((Annotation.id <$> annotation_table db)
            `prefix_of` (Annotation.id <$> annotation_table (serve requests db))
          ∧ team_table (serve requests db) = team_table db) as [Hkeys Hteams].
  { revert db. induction requests as [|r requests IH]; intros db; [done|].
    simpl. destruct (IH (dispatch (request_view r) (request_pk r)
                           (request_data r) (request_now r) db).1.2)
      as [Hkeys Hteams].
    split.
    - etrans; [apply dispatch_keys|done].
    - by rewrite Hteams, dispatch_teams. }
  split; [done|]. split; [|done].
  apply prefix_length in Hkeys. by rewrite !length_fmap in Hkeys.
Qed.





End ServingProperties.

(** In the scenario: team 1 creates an annotation, takes over annotation 2
    with a partial update, and asks for annotation 1 to be destroyed. *)
Lemma serve_consistent_witness :
  db_consistent
    (@serve scenario_framework
       [ mkRequest (as_team "create" 1 []) 0 {[ "content" := JString "launch" ]}
           500;
         mkRequest (as_team "partial_update" 1 []) 2
           {[ "scope" := JString "project" ]} 600;
         mkRequest (as_team "destroy" 1 []) 1 ∅ 700 ]
       scenario_db).
Proof.
  apply (@serve_consistent scenario_framework).
  split; [compute_done|]. split; repeat constructor.
Defined.

